(** * AI-Fitness-Agent: the deterministic tools of [src/tools/fitness_tools.py]

    A shallow embedding of the four tools the agent calls
    ([calculate_diet_plan], [generate_workout_schedule],
    [find_youtube_workout_video], [get_calories_for_food]) and the
    properties their specification states about them.

    Python values are modelled as follows.
    - [float] is an IEEE 754 binary64 number: Rocq's primitive [float], whose
      [+ - * /] round to nearest-even exactly as CPython's do.
    - [int] is [Z]; an [int] meeting a [float] in an arithmetic operation is
      converted first ([float_of_int]), which raises [OverflowError] when the
      integer is too large.
    - [str] is [string]; the search results' dicts are [gmap string string].
    - a call either returns a value or raises: the [result] monad. *)

From Stdlib Require Import ZArith QArith Floats Ascii String List Bool Lia.
From stdpp Require Import base option gmap strings.
Import ListNotations.

Open Scope string_scope.
Open Scope Z_scope.

(* The decimal literals of the source (1.2, 1.55, 1.8, ...) denote the
   nearest double, in Python as here. *)
Set Warnings "-inexact-float".

(** ** Exceptions and results *)

(** A raised exception: its class name and what [str(e)] prints. Only
    subclasses of [Exception] are modelled. *)
Record exn := Exn { exn_class : string; exn_str : string }.

Inductive result (A : Type) : Type :=
| Return (a : A)
| Raise (e : exn).
Arguments Return {A} a.
Arguments Raise {A} e.

(** Sequencing: an exception raised by [r] skips the rest. With this
    instance [x ← r; k] is stdpp's notation for it. *)
#[global] Instance result_bind : MBind result := fun A B k r =>
  match r with
  | Return a => k a
  | Raise e => Raise e
  end.

(** [try: body except Exception as e: handler e] *)
Definition try_except {A} (body : result A) (handler : exn -> result A) : result A :=
  match body with
  | Return a => Return a
  | Raise e => handler e
  end.

Definition returns {A} (r : result A) : Prop := exists a, r = Return a.

(** ** Strings *)

(** [str.lower] on the bytes of the string. Python lowers every cased code
    point; the tools only compare the lowered string with the ASCII words
    [male], [sedentary], [light], [moderate] and [active], and no non-ASCII
    code point lowers to a letter of these words, so lowering the ASCII
    capitals decides those comparisons as Python does. *)
Definition lower_ascii (c : ascii) : ascii :=
  let n := nat_of_ascii c in
  if ((65 <=? n) && (n <=? 90))%nat then ascii_of_nat (n + 32) else c.

Fixpoint lower (s : string) : string :=
  match s with
  | EmptyString => EmptyString
  | String c t => String (lower_ascii c) (lower t)
  end.

(** [needle in hay] for strings. *)
Fixpoint str_in (needle hay : string) : bool :=
  String.prefix needle hay ||
  match hay with
  | EmptyString => false
  | String _ t => str_in needle t
  end.

(** ** Numbers *)

Definition OverflowError_int : exn :=
  Exn "OverflowError" "int too large to convert to float".
Definition OverflowError_inf : exn :=
  Exn "OverflowError" "cannot convert float infinity to integer".
Definition ValueError_nan : exn :=
  Exn "ValueError" "cannot convert float NaN to integer".

(** The conversion of an [int] operand to [float]: the nearest double, ties
    to even, and [OverflowError] past the largest one. *)
Definition float_of_int (z : Z) : result float :=
  match binary_normalize prec emax z 0 false with
  | S754_infinity _ => Raise OverflowError_int
  | sf => Return (SF2Prim sf)
  end.

(** The exact value of a finite double, as a fraction. *)
Definition SF2Q (sf : spec_float) : option Q :=
  match sf with
  | S754_zero _ => Some (0 # 1)%Q
  | S754_finite s m e =>
      let n := if s then Z.neg m else Z.pos m in
      Some (match e with
            | Z.neg p => Qmake n (2 ^ p)%positive
            | _ => Qmake (n * 2 ^ e) 1
            end)
  | S754_infinity _ | S754_nan => None
  end.

(** Nearest integer of a fraction, halves to the even neighbour: the
    half-up candidate [floor (q + 1/2)], lowered by one on an exact half
    when it is odd. *)
Definition round_half_even (q : Q) : Z :=
  let n := 2 * Qnum q + Z.pos (Qden q) in
  let d := 2 * Z.pos (Qden q) in
  let k := n / d in
  if (n mod d =? 0) && Z.odd k then k - 1 else k.

(** A number that is either an [int] or a [float], as the values of the
    [macros] dict are. *)
Inductive pynum :=
| PyInt (z : Z)
| PyFloat (x : float).

(** [round(x)] with one argument: an [int] is returned as it is, a [float] is
    rounded to the nearest [int] with halves to even; an infinity raises
    [OverflowError] and a NaN [ValueError]. *)
Definition float_round (x : float) : result Z :=
  match Prim2SF x with
  | S754_infinity _ => Raise OverflowError_inf
  | S754_nan => Raise ValueError_nan
  | sf => match SF2Q sf with
          | Some q => Return (round_half_even q)
          | None => Raise ValueError_nan
          end
  end.

Definition py_round (v : pynum) : result Z :=
  match v with
  | PyInt z => Return z
  | PyFloat x => float_round x
  end.

(** The exact value of a number, when it has one. *)
Definition py_value (v : pynum) : option Q :=
  match v with
  | PyInt z => Some (inject_Z z)
  | PyFloat x => SF2Q (Prim2SF x)
  end.

(** Python's [==] between numbers: by exact value; a NaN equals nothing. *)
Definition py_eq (a b : pynum) : bool :=
  match a, b with
  | PyFloat x, PyFloat y => PrimFloat.eqb x y
  | _, _ =>
      match py_value a, py_value b with
      | Some p, Some q => Qeq_bool p q
      | _, _ => false
      end
  end.

(** ** [calculate_diet_plan] *)

Module Meal.
Record t := Build
  { Day : string; Breakfast : string; Lunch : string; Dinner : string }.
End Meal.

(** The [macros] dict: its three keys, before rounding ([pynum]) and as
    returned ([Z]). *)
Record Macros (A : Type) := Build_Macros
  { protein_g : A; carbs_g : A; fat_g : A }.
Arguments Build_Macros {A}.
Arguments protein_g {A}.
Arguments carbs_g {A}.
Arguments fat_g {A}.

Record DietPlan := Build_DietPlan
  { daily_calories : Z;
    macros : Macros Z;
    weekly_meal_plan : list Meal.t }.

(** Lines 15-18, with [five_age] the converted [5 * age]. The [int] literals
    [10], [5] and [161] meet a [float] and stand here as doubles. *)
Definition bmr (gender : string) (weight_kg height_cm five_age : float) : float :=
  if String.eqb (lower gender) "male"
  then (10 * weight_kg + 6.25 * height_cm - five_age + 5)%float
  else (10 * weight_kg + 6.25 * height_cm - five_age - 161)%float.

(** Line 20. *)
Definition activity_multipliers : gmap string float :=
  <["sedentary" := 1.2%float]>
    (<["light" := 1.375%float]>
       (<["moderate" := 1.55%float]>
          (<["active" := 1.725%float]> ∅))).

(** [activity_multipliers.get(activity_level.lower(), 1.55)] *)
Definition activity_multiplier (activity_level : string) : float :=
  default 1.55%float (activity_multipliers !! lower activity_level).

(** Lines 23-30: the goal-adjusted calories and the [macros] dict. *)
Definition goal_adjust (goal : string) (weight_kg calories : float)
  : float * Macros pynum :=
  if String.eqb goal "weight_loss" then
    let calories := (calories - 400)%float in
    (calories,
     {| protein_g := PyFloat (1.8 * weight_kg);
        carbs_g := PyInt 150;
        fat_g := PyFloat ((calories * 0.25) / 9) |})
  else if String.eqb goal "muscle_gain" then
    let calories := (calories + 400)%float in
    (calories,
     {| protein_g := PyFloat (2.0 * weight_kg);
        carbs_g := PyFloat ((calories * 0.4) / 4);
        fat_g := PyFloat ((calories * 0.3) / 9) |})
  else
    (calories,
     {| protein_g := PyFloat (1.8 * weight_kg);
        carbs_g := PyFloat ((calories * 0.45) / 4);
        fat_g := PyFloat ((calories * 0.25) / 9) |}).

(** Lines 33-41. *)
Definition meal_plan_by_day : list Meal.t :=
  [ Meal.Build "Monday" "Oatmeal & Berries" "Grilled Chicken Salad" "Salmon & Veggies";
    Meal.Build "Tuesday" "Scrambled Eggs" "Quinoa Bowl" "Lentil Soup";
    Meal.Build "Wednesday" "Greek Yogurt & Nuts" "Leftover Salmon" "Turkey Stir-fry";
    Meal.Build "Thursday" "Protein Smoothie" "Leftover Stir-fry" "Chicken Fajitas";
    Meal.Build "Friday" "Oatmeal & Berries" "Tuna Salad Sandwich" "Lean Steak & Asparagus";
    Meal.Build "Saturday" "Pancakes (Protein)" "Leftover Steak" "Healthy Pizza";
    Meal.Build "Sunday" "Scrambled Eggs" "Large Salad" "Roast Chicken" ].

(** Lines 14-21: [calories] before the goal is looked at. [5 * age] is an
    [int] product, converted when it is subtracted from a [float]. *)
Definition base_calories (weight_kg height_cm : float) (age : Z)
    (gender activity_level : string) : result float :=
  five_age ← float_of_int (5 * age);
  Return (bmr gender weight_kg height_cm five_age
          * activity_multiplier activity_level)%float.

(** Lines 14-30: the calories and macros before rounding. *)
Definition diet_targets (goal : string) (weight_kg height_cm : float) (age : Z)
    (gender activity_level : string) : result (float * Macros pynum) :=
  calories ← base_calories weight_kg height_cm age gender activity_level;
  Return (goal_adjust goal weight_kg calories).

(** Lines 43-47: the returned dict, its values rounded in the order they
    are written. *)
Definition round_plan (t : float * Macros pynum) : result DietPlan :=
  let '(calories, m) := t in
  cal ← float_round calories;
  p ← py_round (protein_g m);
  c ← py_round (carbs_g m);
  f ← py_round (fat_g m);
  Return {| daily_calories := cal;
            macros := {| protein_g := p; carbs_g := c; fat_g := f |};
            weekly_meal_plan := meal_plan_by_day |}.

Definition calculate_diet_plan (goal : string) (weight_kg height_cm : float)
    (age : Z) (gender activity_level : string) : result DietPlan :=
  t ← diet_targets goal weight_kg height_cm age gender activity_level;
  round_plan t.

(** ** [generate_workout_schedule] *)

Module Workout.
Record t := Build
  { Day : string; Workout_Type : string; Example_Exercises : string }.
End Workout.

(** Lines 53-61: the list returned for [muscle_gain]. *)
Definition strength_split : list Workout.t :=
  [ Workout.Build "Monday" "Upper Body Strength" "3x5 Bench Press, 3x8 Rows";
    Workout.Build "Tuesday" "Lower Body Strength" "3x5 Squats, 1x5 Deadlifts";
    Workout.Build "Wednesday" "Active Recovery" "30 min walk or stretching";
    Workout.Build "Thursday" "Upper Body Hypertrophy" "4x12 Incline Press, 4x15 Lat Pulldowns";
    Workout.Build "Friday" "Lower Body Hypertrophy" "4x12 Lunges, 4x15 Leg Curls";
    Workout.Build "Saturday" "Full Body / Cardio" "30 mins moderate cardio, planks";
    Workout.Build "Sunday" "Rest" "Full rest day" ].

(** Lines 63-71: the list returned otherwise. *)
Definition general_split : list Workout.t :=
  [ Workout.Build "Monday" "Full Body Strength" "3x10 Goblet Squats, 3x12 Push-ups";
    Workout.Build "Tuesday" "HIIT Cardio" "20 mins: 30s sprint, 60s rest";
    Workout.Build "Wednesday" "Active Recovery" "30 min walk";
    Workout.Build "Thursday" "Full Body Strength" "3x10 Overhead Press, 3x12 Lunges";
    Workout.Build "Friday" "Steady-State Cardio" "45 mins jogging or cycling";
    Workout.Build "Saturday" "Core & Flexibility" "3 sets of leg raises, planks";
    Workout.Build "Sunday" "Rest" "Full rest day" ].

Definition generate_workout_schedule (goal experience_level : string)
  : list Workout.t :=
  if String.eqb goal "muscle_gain" then strength_split else general_split.

(** ** The search tools *)

(** What [TavilySearchResults(...).invoke({"query": q})] gives for the query
    [q]: a list of result dicts, or an exception (a missing key, the network,
    a malformed answer). The service is outside the repository, so the tools
    take it as a parameter. *)
Definition search_service := string -> result (list (gmap string string)).

(** Line 93. *)
Definition is_youtube_url (url_to_check : string) : bool :=
  str_in "youtube.com/watch" url_to_check || str_in "youtu.be/" url_to_check.

(** Lines 89-90 and 95: the Markdown link made of one result. *)
Definition formatted_link (workout_type : string) (res_dict : gmap string string)
  : string :=
  let url_to_check := default "" (res_dict !! "url") in
  let title := default (workout_type +:+ " Workout Video") (res_dict !! "title") in
  "[" +:+ title +:+ "](" +:+ url_to_check +:+ ")".

(** Lines 88-98: the loop over the results. *)
Fixpoint first_youtube_link (workout_type : string)
    (results : list (gmap string string)) : string :=
  match results with
  | [] => "Could not find a direct YouTube video link in search results."
  | res_dict :: rest =>
      if is_youtube_url (default "" (res_dict !! "url"))
      then formatted_link workout_type res_dict
      else first_youtube_link workout_type rest
  end.

Definition find_youtube_workout_video (tavily_search : search_service)
    (workout_type : string) : result string :=
  try_except
    (results ← tavily_search ("'" +:+ workout_type +:+ "' workout video youtube.com");
     match results with
     | [] => Return "Could not find any relevant search results for a video."
     | _ => Return (first_youtube_link workout_type results)
     end)
    (fun e => Return ("Could not find a video link due to an error: " +:+ exn_str e)).

Definition get_calories_for_food (tavily_search : search_service)
    (food_item : string) : result string :=
  try_except
    (results ← tavily_search ("calories in " +:+ food_item);
     match results with
     | [] => Return "Could not find calorie information."
     | first :: _ =>
         match first !! "content" with
         | Some (String c s) => Return (String c s)
         | _ => Return "Could not find calorie information in the search results."
         end
     end)
    (fun e => Return ("Could not find calorie information due to an error: " +:+ exn_str e)).

(** ** [get_motivational_content] *)

Module Quote.
Record t := Build { quote : string; author : string }.
End Quote.

Record MotivationalContent := Build_MotivationalContent
  { quote : Quote.t; fact : string }.

Definition IndexError_empty : exn :=
  Exn "IndexError" "Cannot choose from an empty sequence".

(** [random.choice(seq)]: [IndexError] on an empty sequence, otherwise the
    element at a random index below [len(seq)]; [draw] is the number the
    generator produces for this call. *)
Definition random_choice {A} (draw : nat) (seq : list A) : result A :=
  match seq with
  | [] => Raise IndexError_empty
  | x :: _ =>
      Return (List.nth (draw mod List.length seq) seq x)
  end.

(** Lines 125-129. The two calls of [random.choice] take one draw each. *)
Definition get_motivational_content (draw1 draw2 : nat) (topic : string)
  : result MotivationalContent :=
  let quotes :=
    [ Quote.Build "The only bad workout is the one that didn't happen." "Unknown" ] in
  let facts :=
    [ "Fact: Regular exercise has been shown to improve mood and reduce feelings of anxiety and depression." ] in
  q ← random_choice draw1 quotes;
  f ← random_choice draw2 facts;
  Return {| quote := q; fact := f |}.

(** ** The application: [src/app.py] *)

Definition dquote : string := String "034"%char EmptyString.
Definition newline : ascii := "010"%char.

(** The part [(.*?)\)] of the pattern of line 34: the shortest run of
    characters other than a newline that is followed by a closing
    parenthesis; the run is returned. *)
Fixpoint lazy_until_paren (s : string) : option string :=
  match s with
  | EmptyString => None
  | String c t =>
      if Ascii.eqb c ")" then Some EmptyString
      else if Ascii.eqb c newline then None
      else match lazy_until_paren t with
           | Some url => Some (String c url)
           | None => None
           end
  end.

(** The part [(.*?)\]\((.*?)\)] of the pattern: the shortest run of
    characters other than a newline after which ["]("], a second such run
    and [")"] follow; the two runs are returned. A position where ["]("]
    stands but the rest does not match is passed over, as the regular
    expression engine backtracks. *)
Fixpoint lazy_bracket (s : string) : option (string * string) :=
  match s with
  | EmptyString => None
  | String c t =>
      let here :=
        match t with
        | String c' u =>
            if Ascii.eqb c "]" && Ascii.eqb c' "(" then lazy_until_paren u else None
        | EmptyString => None
        end in
      match here with
      | Some url => Some (EmptyString, url)
      | None =>
          if Ascii.eqb c newline then None
          else match lazy_bracket t with
               | Some (title, url) => Some (String c title, url)
               | None => None
               end
      end
  end.

(** [re.match(r'\[(.*?)\]\((.*?)\)', s)]: the groups 1 and 2 of a match at
    the start of [s]. The pattern is matched on the bytes of the string; the
    bytes it names are ASCII and never part of a longer UTF-8 sequence, so
    the groups are those Python finds on the code points. *)
Definition re_match_markdown_link (s : string) : option (string * string) :=
  match s with
  | String c rest => if Ascii.eqb c "[" then lazy_bracket rest else None
  | EmptyString => None
  end.

(** Line 39. *)
Definition html_link (title url : string) : string :=
  "<a href=" +:+ dquote +:+ url +:+ dquote +:+ " target=" +:+ dquote
    +:+ "_blank" +:+ dquote +:+ ">" +:+ title +:+ "</a>".

(** Lines 25-40. The argument is [Some s] for a [str] and [None] for any
    other value (a [None] or NaN cell of the table). *)
Definition markdown_to_html_link (markdown_link_str : option string) : string :=
  match markdown_link_str with
  | None => ""
  | Some s =>
      match re_match_markdown_link s with
      | Some (title, url) => html_link title url
      | None => s
      end
  end.

#[local] Set Warnings "-register-all".

(** A JSON value, as [json.loads] builds it and as the user's details are
    kept; a dict keeps the order of its keys. *)
Inductive json :=
| JNull
| JBool (b : bool)
| JInt (z : Z)
| JFloat (x : float)
| JStr (s : string)
| JList (l : list json)
| JDict (d : list (string * json)).

(** An entry of a chat history: [{"role": ..., "content": ...}]. *)
Record message := Message { role : string; content : string }.

(** The dict kept for a session (lines 16-21). *)
Record session (Agent : Type) := Session
  { agent_executor : Agent;
    user_details : list (string * json);
    plan_context : string;
    chat_history : list message }.
Arguments Session {Agent}.
Arguments agent_executor {Agent}.
Arguments user_details {Agent}.
Arguments plan_context {Agent}.
Arguments chat_history {Agent}.

(** Lines 13-22. The module-level dict [sessions] is threaded through: the
    function gives what it returns or raises, and the dict it leaves.
    [create_agent] stands for the call [create_agent()] of
    [agent/agent_core.py], which builds the executor from external
    services and may raise. *)
Definition get_session {Agent} (create_agent : result Agent)
    (session_id : string) (sessions : gmap string (session Agent))
  : result (session Agent) * gmap string (session Agent) :=
  match sessions !! session_id with
  | Some s => (Return s, sessions)
  | None =>
      match create_agent with
      | Return agent =>
          let s := {| agent_executor := agent; user_details := [];
                      plan_context := ""; chat_history := [] |} in
          (Return s, <[session_id := s]> sessions)
      | Raise e => (Raise e, sessions)
      end
  end.

(** Lines 138-142. *)
Definition contextual_prompt (plan_context user_message : string) : string :=
  String newline "    Context: " +:+ plan_context +:+
  String newline "    User's new request: " +:+ dquote +:+ user_message +:+ dquote +:+
  String newline "    Based on the context and the new request, generate an updated JSON plan if needed, or answer the question textually." +:+
  String newline "    ".

(** Lines 133-150. [agent_invoke agent p] stands for
    [agent.invoke({"input": p})]: the response dict, or an exception. The
    list [chat_history] is the one the caller passes, extended in place. *)
Definition respond_in_chat {Agent} (create_agent : result Agent)
    (agent_invoke : Agent -> string -> result (gmap string string))
    (user_message : string) (chat_history : list message) (session_id : string)
    (sessions : gmap string (session Agent))
  : result (list message) * gmap string (session Agent) :=
  match get_session create_agent session_id sessions with
  | (Raise e, sessions) => (Raise e, sessions)
  | (Return session, sessions) =>
      let chat_history := (chat_history ++ [Message "user" user_message])%list in
      let prompt := contextual_prompt (plan_context session) user_message in
      let chat_history :=
        match agent_invoke (agent_executor session) prompt with
        | Return response =>
            let bot_message_raw :=
              default "Sorry, I had trouble." (response !! "output") in
            (chat_history ++ [Message "assistant" bot_message_raw])%list
        | Raise e =>
            (chat_history
               ++ [Message "assistant" ("An error occurred: " +:+ exn_str e)])%list
        end in
      (Return chat_history, sessions)
  end.

(** Lines 152-154: no [try] here. The result is the [output] of the
    response, [None] when the response has none. *)
Definition handle_calorie_lookup {Agent} (create_agent : result Agent)
    (agent_invoke : Agent -> string -> result (gmap string string))
    (food_item : string) (session_id : string)
    (sessions : gmap string (session Agent))
  : result (option string) * gmap string (session Agent) :=
  match get_session create_agent session_id sessions with
  | (Raise e, sessions) => (Raise e, sessions)
  | (Return session, sessions) =>
      match agent_invoke (agent_executor session)
              ("Use your tool to find the calories for '" +:+ food_item +:+ "'") with
      | Return response => (Return (response !! "output"), sessions)
      | Raise e => (Raise e, sessions)
      end
  end.

(** ** Notions the properties are stated with *)

(** The reading the specification's sentence gives:
    [round(10*w + 6.25*h - 5*a + k) * activity_multiplier], the rounding
    applied to the base rate and the product left as it is. *)
Definition spec_round_then_multiply (w h : float) (a : Z) (k m : float)
  : result pynum :=
  fa ← float_of_int (5 * a);
  r ← float_round (10 * w + 6.25 * h - fa + k);
  fr ← float_of_int r;
  Return (PyFloat (fr * m)).

(** The double [x + y] is the exact sum of [x] and [y]: the addition did
    not round. *)
Definition exact_add (x y : float) : Prop :=
  match SF2Q (Prim2SF (x + y)), SF2Q (Prim2SF x), SF2Q (Prim2SF y) with
  | Some s, Some a, Some b => (s == a + b)%Q
  | _, _, _ => False
  end.

(** [math.isfinite]: neither an infinity nor a NaN. *)
Definition is_finite (x : float) : bool :=
  match Prim2SF x with
  | S754_zero _ | S754_finite _ _ _ => true
  | S754_infinity _ | S754_nan => false
  end.

Definition py_finite (v : pynum) : bool :=
  match v with
  | PyInt _ => true
  | PyFloat x => is_finite x
  end.

(** [sf_sign s x]: [x] is a zero, a NaN, or carries the sign bit [s]. *)
Definition sf_sign (s : bool) (x : spec_float) : Prop :=
  match x with
  | S754_finite s' _ _ | S754_infinity s' => s' = s
  | S754_zero _ | S754_nan => True
  end.

Definition float_sign (s : bool) (x : float) : Prop := sf_sign s (Prim2SF x).

(** A double with a positive value. *)
Definition float_pos (y : float) : Prop :=
  match Prim2SF y with
  | S754_finite false _ _ => True
  | _ => False
  end.

Definition url_of (res_dict : gmap string string) : string :=
  default "" (res_dict !! "url").

(** [needle] occurs in [hay]: some text, then [needle], then some text. *)
Definition occurs_in (needle hay : string) : Prop :=
  exists pre post, hay = pre +:+ needle +:+ post.

(** A URL of a YouTube video: [youtube.com/watch] or [youtu.be/] occurs in
    it. *)
Definition youtube_url (url : string) : Prop :=
  occurs_in "youtube.com/watch" url \/ occurs_in "youtu.be/" url.

(** Two search results: a page that is not a video, then a short YouTube
    link. *)
Definition article_result : gmap string string :=
  <["url" := "https://example.com/hiit-guide"]>
    (<["title" := "A guide to HIIT"]> ∅).

Definition short_link_result : gmap string string :=
  <["url" := "https://youtu.be/xyz"]> (<["title" := "HIIT in 10 minutes"]> ∅).

Definition article_then_video (query : string)
  : result (list (gmap string string)) :=
  Return [article_result; short_link_result].

Definition day_names : list string :=
  ["Monday"; "Tuesday"; "Wednesday"; "Thursday"; "Friday"; "Saturday"; "Sunday"].

Definition plan_70_175_30_sedentary : DietPlan :=
  {| daily_calories := 1978;
     macros := {| protein_g := 126; carbs_g := 223; fat_g := 55 |};
     weekly_meal_plan := meal_plan_by_day |}.

Definition plan_70_175_30_maintenance : DietPlan :=
  {| daily_calories := 2556;
     macros := {| protein_g := 126; carbs_g := 288; fat_g := 71 |};
     weekly_meal_plan := meal_plan_by_day |}.

Definition plan_70_175_30_muscle_gain : DietPlan :=
  {| daily_calories := 2956;
     macros := {| protein_g := 140; carbs_g := 296; fat_g := 99 |};
     weekly_meal_plan := meal_plan_by_day |}.

(** Every character of the string passes the test. *)
Fixpoint all_chars (p : ascii -> bool) (s : string) : bool :=
  match s with
  | EmptyString => true
  | String c t => p c && all_chars p t
  end.

(** What the [.] of a regular expression matches: all but the newline. *)
Definition not_newline (c : ascii) : bool := negb (Ascii.eqb c newline).

(** A character that can stand in a link's URL: neither a newline nor the
    parenthesis that closes the link. *)
Definition url_char (c : ascii) : bool :=
  negb (Ascii.eqb c ")") && negb (Ascii.eqb c newline).

(** A search result with a YouTube URL and a title. *)
Definition one_video_result : gmap string string :=
  <["url" := "https://www.youtube.com/watch?v=abc"]>
    (<["title" := "20 Minute HIIT"]> ∅).

(** The double [x - y] is the exact difference of [x] and [y]. *)
Definition exact_sub (x y : float) : Prop :=
  match SF2Q (Prim2SF (x - y)), SF2Q (Prim2SF x), SF2Q (Prim2SF y) with
  | Some s, Some a, Some b => (s == a - b)%Q
  | _, _, _ => False
  end.

(** [math.isnan]. *)
Definition is_nan (x : float) : bool :=
  match Prim2SF x with
  | S754_nan => true
  | _ => false
  end.

Definition plan_70_175_30_weight_loss : DietPlan :=
  {| daily_calories := 2156;
     macros := {| protein_g := 126; carbs_g := 150; fat_g := 60 |};
     weekly_meal_plan := meal_plan_by_day |}.

(** The content [get_motivational_content] has to offer. *)
Definition the_motivational_content : MotivationalContent :=
  {| quote := Quote.Build "The only bad workout is the one that didn't happen."
                "Unknown";
     fact := "Fact: Regular exercise has been shown to improve mood and reduce feelings of anxiety and depression." |}.

(** Two agents for the examples: one whose response has no [output], one
    that raises. *)
Definition silent_agent (agent : unit) (prompt : string)
  : result (gmap string string) := Return ∅.

Definition timeout_error : exn := Exn "TimeoutError" "timed out".

Definition failing_agent (agent : unit) (prompt : string)
  : result (gmap string string) := Raise timeout_error.

(** ** [render_plan_from_json] *)

(** [type(v).__name__] *)
Definition type_name (v : json) : string :=
  match v with
  | JNull => "NoneType"
  | JBool _ => "bool"
  | JInt _ => "int"
  | JFloat _ => "float"
  | JStr _ => "str"
  | JList _ => "list"
  | JDict _ => "dict"
  end.

(** What [v.get] raises when [v] is not a dict. *)
Definition AttributeError_get (v : json) : exn :=
  Exn "AttributeError" ("'" +:+ type_name v +:+ "' object has no attribute 'get'").

(** [d[key]], when the key is there. *)
Fixpoint dict_lookup (key : string) (d : list (string * json)) : option json :=
  match d with
  | [] => None
  | (k, v) :: rest => if String.eqb k key then Some v else dict_lookup key rest
  end.

(** [v.get(key, fallback)]: only a dict has the method. *)
Definition py_get (v : json) (key : string) (fallback : json) : result json :=
  match v with
  | JDict d => Return (default fallback (dict_lookup key d))
  | _ => Raise (AttributeError_get v)
  end.

(** [bool(v)], as [if v:] tests it. *)
Definition truthy (v : json) : bool :=
  match v with
  | JNull => false
  | JBool b => b
  | JInt z => negb (z =? 0)
  | JFloat x => negb (PrimFloat.eqb x 0)
  | JStr s => negb (String.eqb s "")
  | JList l => match l with [] => false | _ :: _ => true end
  | JDict d => match d with [] => false | _ :: _ => true end
  end.

(** The operations of pandas that the function uses, each as the library
    provides it: they are outside the repository. *)
Record Pandas := Build_Pandas
  { DataFrame : Type;
    (** [pd.DataFrame(data)] *)
    pd_DataFrame : json -> result DataFrame;
    (** [pd.DataFrame()] *)
    pd_empty : DataFrame;
    (** [column in df.columns] *)
    df_has_column : DataFrame -> string -> bool;
    (** [df[column] = df[column].apply(f)]; [f] sees a cell as [Some s]
        when it is a [str] and as [None] otherwise. *)
    df_apply : DataFrame -> string -> (option string -> string) -> result DataFrame;
    (** [df.to_html(escape=False, index=False)] *)
    df_to_html : DataFrame -> result string }.

(** How an f-string shows a value: a [str] as it is, any other value through
    [str_of], which stands for Python's [str()]. *)
Definition fstring_value (str_of : json -> string) (v : json) : string :=
  match v with
  | JStr s => s
  | _ => str_of v
  end.

(** Lines 51-58. *)
Definition diet_md_text (daily_calories protein carbs fat : string) : string :=
  String newline "        ### 🥗 Your Nutrition Plan" +:+
  String newline "        **Daily Calorie Target:** `" +:+ daily_calories +:+ " kcal`" +:+
  String newline "        **Macronutrients:**" +:+
  String newline "        - **Protein:** `" +:+ protein +:+ "g`" +:+
  String newline "        - **Carbs:** `" +:+ carbs +:+ "g`" +:+
  String newline "        - **Fat:** `" +:+ fat +:+ "g`" +:+
  String newline "        ".

(** Line 63. *)
Definition workout_header : string := "<h3>🏋️ Your Workout Plan</h3>".

(** Line 79. *)
Definition quote_text_of (quote author : string) : string :=
  "## 🔥 Motivation Zone" +:+ String newline "> " +:+ dquote +:+ quote +:+ dquote
    +:+ " " +:+ String newline "> — *" +:+ author +:+ "*".

(** Line 80. *)
Definition fact_text_of (fact : string) : string :=
  "💡 **Did you know?** " +:+ fact.

(** What the function returns: the Markdown of the diet, the table of
    meals, the HTML of the workouts, the quote, the fact, and the parsed
    plan ([None] for Python's [None]). *)
Definition rendered (pd : Pandas) : Type :=
  (string * DataFrame pd * string * string * string * option json)%type.

(** Line 46: the plan is parsed when it comes as a [str] and taken as it is
    otherwise. *)
Definition load_plan (json_loads : string -> result json) (raw_json_string : json)
  : result json :=
  match raw_json_string with
  | JStr s => json_loads s
  | _ => Return raw_json_string
  end.

(** Lines 62-74. *)
Definition render_workout (pd : Pandas) (workout_plan_data : json) : result string :=
  if truthy workout_plan_data then
    workout_df ← pd_DataFrame pd workout_plan_data;
    workout_df ← (if df_has_column pd workout_df "Video Link"
                  then df_apply pd workout_df "Video Link" markdown_to_html_link
                  else Return workout_df);
    html ← df_to_html pd workout_df;
    Return (workout_header +:+ html)
  else Return (workout_header +:+ "<p>No workout plan generated.</p>").

(** Lines 46-83: the body of the [try]. *)
Definition render_plan_body (pd : Pandas) (json_loads : string -> result json)
    (str_of : json -> string) (raw_json_string : json) : result (rendered pd) :=
  data ← load_plan json_loads raw_json_string;
  diet_plan ← py_get data "diet_plan" (JDict []);
  macros ← py_get diet_plan "macros" (JDict []);
  daily_calories ← py_get diet_plan "daily_calories" (JStr "N/A");
  protein ← py_get macros "protein_g" (JStr "N/A");
  carbs ← py_get macros "carbs_g" (JStr "N/A");
  fat ← py_get macros "fat_g" (JStr "N/A");
  let diet_md :=
    diet_md_text (fstring_value str_of daily_calories) (fstring_value str_of protein)
      (fstring_value str_of carbs) (fstring_value str_of fat) in
  weekly_meal_plan ← py_get diet_plan "weekly_meal_plan" (JList []);
  meal_plan_df ← pd_DataFrame pd weekly_meal_plan;
  workout_plan_data ← py_get data "workout_plan" (JList []);
  workout_html_table ← render_workout pd workout_plan_data;
  motivation ← py_get data "motivational_content" (JDict []);
  quote ← py_get motivation "quote" (JDict []);
  quote_quote ← py_get quote "quote" (JStr "...");
  quote_author ← py_get quote "author" (JStr "Unknown");
  let quote_text :=
    quote_text_of (fstring_value str_of quote_quote)
      (fstring_value str_of quote_author) in
  fact ← py_get motivation "fact" (JStr "...");
  let fact_text := fact_text_of (fstring_value str_of fact) in
  Return (diet_md, meal_plan_df, workout_html_table, quote_text, fact_text, Some data).

(** Line 85: what the [except] clause returns. *)
Definition render_error (pd : Pandas) (e : exn) : rendered pd :=
  ("Error formatting plan: " +:+ exn_str e, pd_empty pd, "", "", "", None).

(** Lines 44-85. *)
Definition render_plan_from_json (pd : Pandas) (json_loads : string -> result json)
    (str_of : json -> string) (raw_json_string : json) : result (rendered pd) :=
  try_except (render_plan_body pd json_loads str_of raw_json_string)
    (fun e => Return (render_error pd e)).

(** A stand-in for pandas in the examples: a table is the JSON it was made
    of, and its HTML is empty. *)
Definition toy_pandas : Pandas :=
  {| DataFrame := json;
     pd_DataFrame := fun data => Return data;
     pd_empty := JList [];
     df_has_column := fun _ _ => false;
     df_apply := fun df _ _ => Return df;
     df_to_html := fun _ => Return "" |}.

(** A parser for the examples that knows one text: the empty object. *)
Definition toy_json_loads (s : string) : result json :=
  if String.eqb s "{}" then Return (JDict [])
  else Raise (Exn "JSONDecodeError" "Expecting value: line 1 column 1 (char 0)").

Definition toy_str_of (v : json) : string := "?".

Definition is_dict (v : json) : bool :=
  match v with
  | JDict _ => true
  | _ => false
  end.

(** ** [generate_initial_plan] *)

(** What is sent to the tabs of the page: [gr.Tabs(selected=n)] or
    [gr.update()]. *)
Inductive tabs_update :=
| SelectTab (selected : Z)
| NoUpdate.

(** The seven outputs of the handler. *)
Definition plan_outputs (pd : Pandas) : Type :=
  (string * DataFrame pd * string * string * string * tabs_update * list message)%type.

(** Lines 94-97. *)
Definition user_details_of (goal weight height age gender activity experience : json)
  : list (string * json) :=
  [ ("goal", goal); ("weight_kg", weight); ("height_cm", height); ("age", age);
    ("gender", gender); ("activity_level", activity);
    ("experience_level", experience) ].

(** Lines 99-108. *)
Definition initial_prompt (goal details : string) : string :=
  String newline "    My primary goal is " +:+ goal +:+ ". My details are: " +:+ details +:+ "." +:+
  String newline "    " +:+
  String newline "    Your task is to generate a complete and detailed fitness plan. To do this, you MUST perform the following sequence of actions:" +:+
  String newline "    1. Call the `calculate_diet_plan` tool with all the user's details to get their nutrition and 7-day meal plan." +:+
  String newline "    2. Call the `generate_workout_schedule` tool to get their 7-day workout schedule." +:+
  String newline "    3. For EACH of the 7 days in the workout schedule that is NOT a rest day, call the `find_youtube_workout_video` tool with the " +:+ dquote +:+ "Workout Type" +:+ dquote +:+ " for that day to find a relevant video link. You must add this link back into the workout schedule data for that day." +:+
  String newline "    4. Call the `get_motivational_content` tool." +:+
  String newline "    5. Finally, combine all the results from the tools into a single, final JSON object with keys: 'diet_plan', 'workout_plan', 'motivational_content'." +:+
  String newline "    ".

(** Line 119. *)
Definition plan_context_text (details plan : string) : string :=
  "Original user details: " +:+ details +:+ String newline (String newline
    "Generated Plan (JSON): ") +:+ plan.

(** Line 121. *)
Definition initial_chat_message : message :=
  Message "assistant"
    ("Ask me anything related to Fitness. like:" +:+ String newline (String newline
     "- 'What are the benefits of a Full Body Strength workout?'") +:+ String newline
     "- 'Find calories for a banana.'" +:+ String newline
     "- 'Tell me another motivational quote.'" +:+ String newline
     "- 'Can you adjust my diet plan for 1600 calories?'").

(** [session["user_details"] = details] and [session["plan_context"] = text] *)
Definition set_user_details {Agent} (details : list (string * json))
    (s : session Agent) : session Agent :=
  {| agent_executor := agent_executor s; user_details := details;
     plan_context := plan_context s; chat_history := chat_history s |}.

Definition set_plan_context {Agent} (text : string) (s : session Agent)
  : session Agent :=
  {| agent_executor := agent_executor s; user_details := user_details s;
     plan_context := text; chat_history := chat_history s |}.

(** Lines 111-126: the body of the [try]; it gives the outputs and the new
    plan context. [json_dumps] is [json.dumps] and [json_dumps_indent] is
    [json.dumps(..., indent=2)]; the calls of [progress] only move the
    progress bar and are left out. *)
Definition plan_attempt {Agent} (pd : Pandas) (json_loads : string -> result json)
    (str_of : json -> string) (json_dumps json_dumps_indent : json -> result string)
    (agent_invoke : Agent -> string -> result (gmap string string))
    (agent : Agent) (prompt : string) (details : list (string * json))
  : result (plan_outputs pd * string) :=
  response ← agent_invoke agent prompt;
  let raw_output := default "{}" (response !! "output") in
  out ← render_plan_from_json pd json_loads str_of (JStr raw_output);
  let '(diet_md, meal_plan_df, workout_html, quote_text, fact_text, plan_data) := out in
  details_text ← json_dumps (JDict details);
  plan_text ← json_dumps_indent (default JNull plan_data);
  Return ((diet_md, meal_plan_df, workout_html, quote_text, fact_text,
           SelectTab 1, [initial_chat_message]),
          plan_context_text details_text plan_text).

(** Lines 88-131. The values of the form come as JSON values: a [str] for a
    choice, a number or [None] for a number box. The session is a dict
    shared with [sessions], so an assignment to one of its keys changes the
    dict of sessions. *)
Definition generate_initial_plan {Agent} (pd : Pandas)
    (json_loads : string -> result json) (str_of : json -> string)
    (json_dumps json_dumps_indent : json -> result string)
    (create_agent : result Agent)
    (agent_invoke : Agent -> string -> result (gmap string string))
    (goal weight height age gender activity experience : json)
    (session_id : string) (sessions : gmap string (session Agent))
  : result (plan_outputs pd) * gmap string (session Agent) :=
  match get_session create_agent session_id sessions with
  | (Raise e, sessions) => (Raise e, sessions)
  | (Return session, sessions) =>
      let details :=
        user_details_of goal weight height age gender activity experience in
      let session := set_user_details details session in
      let sessions := <[session_id := session]> sessions in
      match json_dumps (JDict details) with
      | Raise e => (Raise e, sessions)
      | Return details_text =>
          let prompt := initial_prompt (fstring_value str_of goal) details_text in
          match plan_attempt pd json_loads str_of json_dumps json_dumps_indent
                  agent_invoke (agent_executor session) prompt details with
          | Return (outputs, context) =>
              (Return outputs,
               <[session_id := set_plan_context context session]> sessions)
          | Raise e =>
              (Return ("An error occurred: " +:+ exn_str e, pd_empty pd, "", "", "",
                       NoUpdate, []),
               sessions)
          end
      end
  end.

(** Stand-ins for [json.dumps] in the examples. *)
Definition toy_json_dumps (v : json) : result string :=
  Return match v with JNull => "null" | _ => "{}" end.

(** An agent for the examples whose answer is prose, not JSON. *)
Definition chatty_response : gmap string string :=
  {[ "output" := "Here is your plan!" ]}.

Definition chatty_agent (agent : unit) (prompt : string)
  : result (gmap string string) := Return chatty_response.

(** * Properties *)

(** ** The result monad *)

Lemma bind_Return_inv {A B} (r : result A) (k : A -> result B) (b : B) :
  r ≫= k = Return b -> exists a, r = Return a /\ k a = Return b.
Proof. destruct r as [a|e]; simpl; intros H; [eauto | discriminate]. Qed.

Lemma returns_Return {A} (a : A) : returns (Return a).
Proof. by exists a. Qed.

Lemma not_returns_Raise {A} (e : exn) : ~ returns (@Raise A e).
Proof. by intros [a Ha]. Qed.

(** ** [lower] *)

Lemma lower_ascii_idemp c : lower_ascii (lower_ascii c) = lower_ascii c.
Proof. destruct c as [[] [] [] [] [] [] [] []]; reflexivity. Qed.

Lemma lower_idemp s : lower (lower s) = lower s.
Proof. induction s as [|c s IH]; simpl; [done | by rewrite lower_ascii_idemp, IH]. Qed.

(** ** What a returned plan is made of *)

Lemma base_calories_inv w h a g act c0 :
  base_calories w h a g act = Return c0 ->
  exists fa, float_of_int (5 * a) = Return fa /\
             c0 = (bmr g w h fa * activity_multiplier act)%float.
Proof.
  unfold base_calories. intros H.
  apply bind_Return_inv in H as (fa & Hfa & H). injection H as <-. eauto.
Qed.

(** A plan is returned exactly when [5 * age] converts and the four values
    round; its fields are those roundings. *)
Lemma calculate_diet_plan_inv goal w h a g act p :
  calculate_diet_plan goal w h a g act = Return p ->
  exists c0 c m,
    base_calories w h a g act = Return c0 /\
    goal_adjust goal w c0 = (c, m) /\
    float_round c = Return (daily_calories p) /\
    py_round (protein_g m) = Return (protein_g (macros p)) /\
    py_round (carbs_g m) = Return (carbs_g (macros p)) /\
    py_round (fat_g m) = Return (fat_g (macros p)) /\
    weekly_meal_plan p = meal_plan_by_day.
Proof.
  unfold calculate_diet_plan, diet_targets. intros H.
  apply bind_Return_inv in H as ([c m] & Ht & Hr).
  apply bind_Return_inv in Ht as (c0 & Hc0 & Ht). injection Ht as Ht.
  unfold round_plan in Hr.
  apply bind_Return_inv in Hr as (cal & Hcal & Hr).
  apply bind_Return_inv in Hr as (pr & Hpr & Hr).
  apply bind_Return_inv in Hr as (ca & Hca & Hr).
  apply bind_Return_inv in Hr as (ft & Hfat & Hr).
  injection Hr as <-. simpl. by exists c0, c, m.
Qed.

Lemma calculate_diet_plan_intro goal w h a g act c0 c m cal pr ca ft :
  base_calories w h a g act = Return c0 ->
  goal_adjust goal w c0 = (c, m) ->
  float_round c = Return cal ->
  py_round (protein_g m) = Return pr ->
  py_round (carbs_g m) = Return ca ->
  py_round (fat_g m) = Return ft ->
  calculate_diet_plan goal w h a g act =
    Return (Build_DietPlan cal (Build_Macros pr ca ft) meal_plan_by_day).
Proof.
  intros Hc0 Hg Hc Hp Hca Hf. unfold calculate_diet_plan, diet_targets.
  rewrite Hc0. simpl. rewrite Hg. simpl. rewrite Hc. simpl.
  rewrite Hp. simpl. rewrite Hca. simpl. by rewrite Hf.
Qed.

Lemma goal_adjust_maintenance w c :
  goal_adjust "maintenance" w c =
    (c, {| protein_g := PyFloat (1.8 * w);
           carbs_g := PyFloat ((c * 0.45) / 4);
           fat_g := PyFloat ((c * 0.25) / 9) |}).
Proof. reflexivity. Qed.

(** ** C1: the daily calories of a maintenance plan *)

(** C1, as stated, fails: for a 70 kg, 175 cm, 30 year old sedentary male the
    tool returns 1978 (the rounding of 1648.75 * 1.2), which is not
    [round(1648.75) * 1.2 = 1649 * 1.2]. *)
Lemma C1_counterexample :
  exists p v,
    calculate_diet_plan "maintenance" 70 175 30 "male" "sedentary" = Return p /\
    activity_multipliers !! lower "sedentary" = Some 1.2%float /\
    spec_round_then_multiply 70 175 30 5 1.2 = Return v /\
    daily_calories p = 1978 /\
    py_eq (PyInt (daily_calories p)) v = false.
Proof.
  eexists _, _. split; [vm_compute; reflexivity|].
  split; [vm_compute; reflexivity|].
  split; [vm_compute; reflexivity|].
  split; vm_compute; reflexivity.
Qed.

(** C1, amended: with goal [maintenance] and a recognised activity level of
    multiplier [m], the returned [daily_calories] is the rounding of the
    product [(10*w + 6.25*h - 5*a + 5) * m] when the gender lowers to [male],
    and of [(10*w + 6.25*h - 5*a - 161) * m] for any other gender: the
    rounding is applied after the multiplication. *)
Theorem C1_daily_calories_rounds_product w h a g act m p :
  activity_multipliers !! lower act = Some m ->
  calculate_diet_plan "maintenance" w h a g act = Return p ->
  exists fa,
    float_of_int (5 * a) = Return fa /\
    (lower g = "male" ->
       float_round ((10 * w + 6.25 * h - fa + 5) * m) = Return (daily_calories p)) /\
    (lower g <> "male" ->
       float_round ((10 * w + 6.25 * h - fa - 161) * m) = Return (daily_calories p)).
Proof.
  intros Hm Hp.
  apply calculate_diet_plan_inv in Hp as (c0 & c & mc & Hc0 & Hg & Hc & _).
  apply base_calories_inv in Hc0 as (fa & Hfa & ->).
  rewrite goal_adjust_maintenance in Hg. injection Hg as <- _.
  unfold activity_multiplier in Hc. rewrite Hm in Hc. simpl in Hc.
  exists fa. split; [done|]. unfold bmr in Hc. split; intros Hgen.
  - by rewrite Hgen in Hc.
  - apply String.eqb_neq in Hgen. by rewrite Hgen in Hc.
Qed.

Lemma C1_daily_calories_rounds_product_witness :
  exists fa,
    float_of_int (5 * 30) = Return fa /\
    (lower "Male" = "male" ->
       float_round ((10 * 70 + 6.25 * 175 - fa + 5) * 1.2) =
         Return (daily_calories plan_70_175_30_sedentary)) /\
    (lower "Male" <> "male" ->
       float_round ((10 * 70 + 6.25 * 175 - fa - 161) * 1.2) =
         Return (daily_calories plan_70_175_30_sedentary)).
Proof.
  apply (C1_daily_calories_rounds_product 70 175 30 "Male" "SEDENTARY" 1.2
           plan_70_175_30_sedentary); vm_compute; reflexivity.
Defined.

(** ** Rounding to the nearest integer *)

Lemma round_half_even_Qeq (p q : Q) :
  (p == q)%Q -> round_half_even p = round_half_even q.
Proof.
  destruct p as [n1 d1], q as [n2 d2]. unfold Qeq, round_half_even. simpl.
  intros E.
  set (N1 := 2 * n1 + Z.pos d1). set (N2 := 2 * n2 + Z.pos d2).
  assert (EN : N1 * Z.pos d2 = N2 * Z.pos d1) by (subst N1 N2; lia).
  assert (Ediv : N1 / (2 * Z.pos d1) = N2 / (2 * Z.pos d2)).
  { rewrite <- (Z.div_mul_cancel_r N1 (2 * Z.pos d1) (Z.pos d2)) by lia.
    rewrite <- (Z.div_mul_cancel_r N2 (2 * Z.pos d2) (Z.pos d1)) by lia.
    rewrite EN. f_equal. lia. }
  assert (Emod : N1 mod (2 * Z.pos d1) * Z.pos d2 = N2 mod (2 * Z.pos d2) * Z.pos d1).
  { rewrite <- !Z.mul_mod_distr_r by lia. rewrite EN. f_equal. lia. }
  rewrite Ediv.
  destruct (Z.eqb_spec (N1 mod (2 * Z.pos d1)) 0) as [H1|H1],
           (Z.eqb_spec (N2 mod (2 * Z.pos d2)) 0) as [H2|H2]; try reflexivity; exfalso.
  - rewrite H1 in Emod. lia.
  - rewrite H2 in Emod. lia.
Qed.

(** Adding an even integer moves the rounding by as much: the halves stay
    halves and keep their parity. *)
Lemma round_half_even_add_even (q : Q) (k : Z) :
  round_half_even (q + inject_Z (2 * k))%Q = round_half_even q + 2 * k.
Proof.
  destruct q as [n d]. unfold round_half_even, Qplus, inject_Z. simpl Qnum. simpl Qden.
  rewrite Pos.mul_1_r.
  replace (2 * (n * 1 + 2 * k * Z.pos d) + Z.pos d)
    with ((2 * n + Z.pos d) + (2 * k) * (2 * Z.pos d)) by lia.
  rewrite Z.div_add, Z.mod_add by lia.
  replace (Z.odd ((2 * n + Z.pos d) / (2 * Z.pos d) + 2 * k))
    with (Z.odd ((2 * n + Z.pos d) / (2 * Z.pos d))).
  - destruct (_ && _); lia.
  - rewrite Z.add_comm, Z.odd_add_mul_2. reflexivity.
Qed.

Lemma round_half_even_nonneg (q : Q) : 0 <= Qnum q -> 0 <= round_half_even q.
Proof.
  destruct q as [n d]. unfold round_half_even. simpl. intros Hn.
  assert (Hk : 0 <= (2 * n + Z.pos d) / (2 * Z.pos d)) by (apply Z.div_pos; lia).
  destruct (Z.eq_dec ((2 * n + Z.pos d) / (2 * Z.pos d)) 0) as [E|E].
  - rewrite E. rewrite andb_false_r. lia.
  - destruct (_ && _); lia.
Qed.

Lemma round_half_even_nonpos (q : Q) : Qnum q <= 0 -> round_half_even q <= 0.
Proof.
  destruct q as [n d]. unfold round_half_even. simpl. intros Hn.
  assert (Hk : (2 * n + Z.pos d) / (2 * Z.pos d) < 1)
    by (apply Z.div_lt_upper_bound; lia).
  destruct (_ && _); lia.
Qed.

(** ** Signs of floating-point results *)

Lemma binary_round_aux_sign s m e l :
  sf_sign s (binary_round_aux prec emax s m e l).
Proof.
  unfold binary_round_aux.
  destruct (shr_fexp prec emax m e l) as [mrs' e'].
  destruct (shr_fexp prec emax _ e' loc_Exact) as [mrs'' e''].
  destruct (shr_m mrs''); simpl; [done | | done].
  destruct (_ <=? _)%Z; reflexivity.
Qed.

Lemma SFmul_sign sx sy x y :
  sf_sign sx x -> sf_sign sy y -> sf_sign (xorb sx sy) (SFmul prec emax x y).
Proof.
  destruct x as [? | ? | | ? mx ex], y as [? | ? | | ? my ey]; simpl;
    try done; try (by intros -> ->); try (by intros _ ->); try (by intros -> _).
  intros -> ->. apply binary_round_aux_sign.
Qed.

Lemma SFdiv_sign sx sy x my ey :
  sf_sign sx x ->
  sf_sign (xorb sx sy) (SFdiv prec emax x (S754_finite sy my ey)).
Proof.
  destruct x as [? | ? | | ? mx ex]; simpl; try done; try (by intros ->).
  intros ->. destruct (SFdiv_core_binary _ _ _ _ _ _) as [[mz ez] lz].
  apply binary_round_aux_sign.
Qed.

Lemma mul_sign sx sy x y :
  float_sign sx x -> float_sign sy y -> float_sign (xorb sx sy) (x * y).
Proof. unfold float_sign. rewrite mul_spec. apply SFmul_sign. Qed.

Lemma div_sign sx sy x y my ey :
  Prim2SF y = S754_finite sy my ey ->
  float_sign sx x -> float_sign (xorb sx sy) (x / y).
Proof. unfold float_sign. rewrite div_spec. intros ->. apply SFdiv_sign. Qed.

Lemma SF2Q_sign s x q :
  sf_sign s x -> SF2Q x = Some q -> if s then Qnum q <= 0 else 0 <= Qnum q.
Proof.
  destruct x as [? | ? | | s' m e]; simpl; try done.
  - intros _ [= <-]. by destruct s.
  - intros -> [= <-]. destruct s, e; simpl; lia.
Qed.

Lemma float_round_inv x z :
  float_round x = Return z ->
  exists q, SF2Q (Prim2SF x) = Some q /\ z = round_half_even q.
Proof.
  unfold float_round. destruct (Prim2SF x) as [? | ? | | s m e]; simpl; try done.
  - intros [= <-]. eauto.
  - intros [= <-]. eauto.
Qed.

Lemma float_round_nonneg x z :
  float_sign false x -> float_round x = Return z -> 0 <= z.
Proof.
  intros Hs (q & Hq & ->)%float_round_inv.
  apply round_half_even_nonneg. apply (SF2Q_sign false _ _ Hs Hq).
Qed.

Lemma float_round_nonpos x z :
  float_sign true x -> float_round x = Return z -> z <= 0.
Proof.
  intros Hs (q & Hq & ->)%float_round_inv.
  apply round_half_even_nonpos. apply (SF2Q_sign true _ _ Hs Hq).
Qed.

(** Python's [0 <= x]: neither negative nor a NaN. *)
Lemma leb_zero_sign x : (0 <=? x)%float = true -> float_sign false x.
Proof.
  rewrite leb_spec. unfold float_sign.
  change (Prim2SF 0) with (S754_zero false).
  destruct (Prim2SF x) as [? | [] | | [] m e]; simpl; done.
Qed.

(** ** C3: the goal offset *)

Lemma goal_adjust_muscle_gain w c :
  goal_adjust "muscle_gain" w c =
    ((c + 400)%float,
     {| protein_g := PyFloat (2.0 * w);
        carbs_g := PyFloat (((c + 400) * 0.4) / 4);
        fat_g := PyFloat (((c + 400) * 0.3) / 9) |}).
Proof. reflexivity. Qed.

Lemma goal_adjust_weight_loss w c :
  goal_adjust "weight_loss" w c =
    ((c - 400)%float,
     {| protein_g := PyFloat (1.8 * w);
        carbs_g := PyInt 150;
        fat_g := PyFloat (((c - 400) * 0.25) / 9) |}).
Proof. reflexivity. Qed.

Lemma SF2Q_400 :
  exists q, SF2Q (Prim2SF 400) = Some q /\ (q == inject_Z (2 * 200))%Q.
Proof. eexists. split; [lazy; reflexivity | reflexivity]. Qed.

(** C3, as stated, fails: for a 70 kg, 175 cm, 30 year old moderately active
    male the plans are 2956 kcal for [muscle_gain] and 2556 kcal for
    [maintenance]; they differ by 400, not 800. *)
Lemma C3_counterexample :
  exists pg pm,
    calculate_diet_plan "muscle_gain" 70 175 30 "male" "moderate" = Return pg /\
    calculate_diet_plan "maintenance" 70 175 30 "male" "moderate" = Return pm /\
    daily_calories pg = 2956 /\ daily_calories pm = 2556 /\
    daily_calories pg - daily_calories pm <> 800.
Proof.
  eexists _, _. split; [vm_compute; reflexivity|].
  split; [vm_compute; reflexivity|]. simpl. repeat split; lia.
Qed.

(** The difference is not 400 for every input: when the maintenance calories
    lie just under a half and adding 400 crosses a power of two, the sum
    rounds up to the half. For a 160 cm, 50 year old lightly active woman of
    65.13636363636363 kg the calories are 1705.4999999999998 and 2105.5, and
    the plans say 1705 and 2106. *)
Lemma muscle_gain_offset_may_round :
  exists pg pm,
    calculate_diet_plan "muscle_gain" 65.13636363636363 160 50 "female" "light"
      = Return pg /\
    calculate_diet_plan "maintenance" 65.13636363636363 160 50 "female" "light"
      = Return pm /\
    daily_calories pm = 1705 /\ daily_calories pg = 2106.
Proof.
  eexists _, _. split; [vm_compute; reflexivity|].
  split; [vm_compute; reflexivity|]. split; reflexivity.
Qed.

(** C3, amended: with the other inputs fixed, the [maintenance] calories
    are the rounding of the base calories and the [muscle_gain] calories the
    rounding of the base calories plus 400, whatever the inputs; and the two
    returned [daily_calories] differ by 400 whenever that addition is
    exact. *)
Theorem C3_muscle_gain_minus_maintenance w h a g act c0 pg pm :
  base_calories w h a g act = Return c0 ->
  calculate_diet_plan "muscle_gain" w h a g act = Return pg ->
  calculate_diet_plan "maintenance" w h a g act = Return pm ->
  float_round c0 = Return (daily_calories pm) /\
  float_round (c0 + 400) = Return (daily_calories pg) /\
  (exact_add c0 400 -> daily_calories pg - daily_calories pm = 400).
Proof.
  intros Hc0 Hg Hm.
  apply calculate_diet_plan_inv in Hg as (c1 & cg & mg & Hc1 & Hg & Hrg & _).
  apply calculate_diet_plan_inv in Hm as (c2 & cm & mm & Hc2 & Hm & Hrm & _).
  rewrite Hc0 in Hc1, Hc2. injection Hc1 as <-. injection Hc2 as <-.
  rewrite goal_adjust_muscle_gain in Hg. injection Hg as <- _.
  rewrite goal_adjust_maintenance in Hm. injection Hm as <- _.
  split; [done|]. split; [done|]. intros Hex.
  apply float_round_inv in Hrg as (qg & Hqg & ->).
  apply float_round_inv in Hrm as (qm & Hqm & ->).
  unfold exact_add in Hex. rewrite Hqg, Hqm in Hex.
  destruct SF2Q_400 as (q4 & E4 & Hq4). rewrite E4 in Hex.
  rewrite Hq4 in Hex.
  rewrite (round_half_even_Qeq _ _ Hex), round_half_even_add_even. lia.
Qed.

Lemma C3_muscle_gain_minus_maintenance_witness :
  float_round (1648.75 * 1.55) = Return (daily_calories plan_70_175_30_maintenance) /\
  float_round (1648.75 * 1.55 + 400) = Return (daily_calories plan_70_175_30_muscle_gain) /\
  daily_calories plan_70_175_30_muscle_gain
    - daily_calories plan_70_175_30_maintenance = 400.
Proof.
  destruct (C3_muscle_gain_minus_maintenance 70 175 30 "male" "moderate"
              (1648.75 * 1.55) plan_70_175_30_muscle_gain
              plan_70_175_30_maintenance)
    as (Hm & Hg & Hdiff); [vm_compute; reflexivity ..|].
  split; [exact Hm|]. split; [exact Hg|]. apply Hdiff. vm_compute. reflexivity.
Defined.

(** ** C4, C5: the schedules and the meal plan *)

(** C4: [generate_workout_schedule] returns the strength split when the goal
    is [muscle_gain] and the general split for every other goal string, so
    one of exactly two different 7-day lists; the experience level does not
    change what is returned. *)
Theorem C4_schedule_selection (goal experience_level : string) :
  (goal = "muscle_gain" ->
     generate_workout_schedule goal experience_level = strength_split) /\
  (goal <> "muscle_gain" ->
     generate_workout_schedule goal experience_level = general_split) /\
  (generate_workout_schedule goal experience_level = strength_split \/
   generate_workout_schedule goal experience_level = general_split) /\
  (forall other_level,
     generate_workout_schedule goal other_level =
       generate_workout_schedule goal experience_level) /\
  length strength_split = 7%nat /\ length general_split = 7%nat /\
  strength_split <> general_split.
Proof.
  unfold generate_workout_schedule.
  destruct (String.eqb_spec goal "muscle_gain") as [E|E]; repeat split; auto; try done.
Qed.

(** C5: the meal plan of every returned diet plan and every workout schedule
    have 7 records, whose [Day] fields are Monday to Sunday in that order. *)
Theorem C5_seven_days goal w h a g act p schedule_goal experience_level :
  calculate_diet_plan goal w h a g act = Return p ->
  length (weekly_meal_plan p) = 7%nat /\
  map Meal.Day (weekly_meal_plan p) = day_names /\
  length (generate_workout_schedule schedule_goal experience_level) = 7%nat /\
  map Workout.Day (generate_workout_schedule schedule_goal experience_level)
    = day_names.
Proof.
  intros Hp. apply calculate_diet_plan_inv in Hp as (_ & _ & _ & _ & _ & _ & _ & _ & _ & ->).
  unfold generate_workout_schedule.
  destruct (String.eqb schedule_goal "muscle_gain"); repeat split; reflexivity.
Qed.

Lemma C5_seven_days_witness :
  length (weekly_meal_plan plan_70_175_30_maintenance) = 7%nat /\
  map Meal.Day (weekly_meal_plan plan_70_175_30_maintenance) = day_names /\
  length (generate_workout_schedule "weight_loss" "beginner") = 7%nat /\
  map Workout.Day (generate_workout_schedule "weight_loss" "beginner") = day_names.
Proof.
  apply (C5_seven_days "maintenance" 70 175 30 "male" "moderate").
  vm_compute; reflexivity.
Defined.

(** ** C10: which arguments are compared without regard to case *)

Lemma bmr_lower g w h fa : bmr (lower g) w h fa = bmr g w h fa.
Proof. unfold bmr. by rewrite lower_idemp. Qed.

Lemma activity_multiplier_lower act :
  activity_multiplier (lower act) = activity_multiplier act.
Proof. unfold activity_multiplier. by rewrite lower_idemp. Qed.

(** C10: gender and activity level are lowered before they are compared, the
    goal is not. [Muscle_Gain] lowers to [muscle_gain], yet
    [calculate_diet_plan] treats it as [maintenance] (no offset, protein
    [1.8 * weight_kg]) and [generate_workout_schedule] returns the general
    split for it. *)
Theorem C10_goal_is_case_sensitive :
  (forall goal w h a g act,
     calculate_diet_plan goal w h a (lower g) (lower act)
       = calculate_diet_plan goal w h a g act) /\
  lower "Muscle_Gain" = "muscle_gain" /\
  (forall w c,
     goal_adjust "Muscle_Gain" w c =
       (c, {| protein_g := PyFloat (1.8 * w);
              carbs_g := PyFloat ((c * 0.45) / 4);
              fat_g := PyFloat ((c * 0.25) / 9) |})) /\
  (forall w h a g act,
     calculate_diet_plan "Muscle_Gain" w h a g act
       = calculate_diet_plan "maintenance" w h a g act) /\
  (forall experience_level,
     generate_workout_schedule "Muscle_Gain" experience_level = general_split /\
     generate_workout_schedule (lower "Muscle_Gain") experience_level
       = strength_split) /\
  calculate_diet_plan "Muscle_Gain" 70 175 30 "male" "moderate"
    = Return plan_70_175_30_maintenance /\
  calculate_diet_plan (lower "Muscle_Gain") 70 175 30 "male" "moderate"
    = Return plan_70_175_30_muscle_gain.
Proof.
  split.
  { intros. unfold calculate_diet_plan, diet_targets, base_calories.
    destruct (float_of_int (5 * a)) as [fa|e]; simpl; [|done].
    by rewrite bmr_lower, activity_multiplier_lower. }
  split; [reflexivity|]. split; [reflexivity|]. split; [reflexivity|].
  split; [intros; split; reflexivity|].
  split; vm_compute; reflexivity.
Qed.

(** ** Substrings *)

Lemma prefix_spec (needle hay : string) :
  String.prefix needle hay = true <-> exists post, hay = needle +:+ post.
Proof.
  revert hay. induction needle as [|c needle IH]; intros [|c' hay]; simpl.
  - split; [intros _; by exists "" | done].
  - split; [intros _; by exists (String c' hay) | done].
  - split; [done | by intros [post H]].
  - destruct (Ascii.ascii_dec c c') as [->|Hne].
    + rewrite IH. split; intros [post H]; exists post; [by rewrite H | by injection H].
    + split; [done | intros [post H]; by injection H].
Qed.

Lemma str_in_nil needle : str_in needle "" = String.prefix needle "".
Proof. unfold str_in. apply orb_false_r. Qed.

Lemma str_in_cons needle c hay :
  str_in needle (String c hay)
    = String.prefix needle (String c hay) || str_in needle hay.
Proof. reflexivity. Qed.

(** [str_in needle hay] holds exactly when [needle] occurs in [hay]. *)
Lemma str_in_spec (needle hay : string) :
  str_in needle hay = true <-> exists pre post, hay = pre +:+ needle +:+ post.
Proof.
  induction hay as [|c hay IH].
  - rewrite str_in_nil, prefix_spec. split.
    + intros [post H]. by exists "", post.
    + intros (pre & post & H). destruct pre; [by exists post|done].
  - rewrite str_in_cons, orb_true_iff, prefix_spec, IH. split.
    + intros [[post H] | (pre & post & H)].
      * by exists "", post.
      * exists (String c pre), post. simpl. by rewrite H.
    + intros (pre & post & H). destruct pre as [|c' pre]; simpl in H.
      * left. by exists post.
      * right. injection H as _ H. by exists pre, post.
Qed.

Lemma is_youtube_url_spec url : is_youtube_url url = true <-> youtube_url url.
Proof.
  unfold is_youtube_url, youtube_url, occurs_in.
  by rewrite orb_true_iff, !str_in_spec.
Qed.

Lemma is_youtube_url_false url :
  is_youtube_url url = false <-> ~ youtube_url url.
Proof. rewrite <- is_youtube_url_spec. by destruct (is_youtube_url url). Qed.

Lemma no_youtube_url_Forall (results : list (gmap string string)) :
  Forall (fun d => ~ youtube_url (url_of d)) results ->
  Forall (fun d => is_youtube_url (url_of d) = false) results.
Proof.
  intros H. eapply Forall_impl; [exact H|].
  intros d Hd. by apply is_youtube_url_false.
Qed.

(** ** C6: [find_youtube_workout_video] *)

(** The loop returns the link of the first result with a YouTube URL. *)
Lemma first_youtube_link_first_match workout_type
    (before : list (gmap string string)) r after :
  Forall (fun d => is_youtube_url (url_of d) = false) before ->
  is_youtube_url (url_of r) = true ->
  first_youtube_link workout_type (before ++ r :: after)%list
    = formatted_link workout_type r.
Proof.
  unfold url_of. intros Hb Hr. induction Hb as [|d before Hd Hb IH]; simpl.
  - by rewrite Hr.
  - by rewrite Hd.
Qed.

Lemma first_youtube_link_no_match workout_type results :
  Forall (fun d => is_youtube_url (url_of d) = false) results ->
  first_youtube_link workout_type results
    = "Could not find a direct YouTube video link in search results.".
Proof.
  unfold url_of. induction 1 as [|d results Hd Hr IH]; simpl; [done | by rewrite Hd].
Qed.

(** C6: the results are scanned in order and the first one whose [url]
    contains [youtube.com/watch] or [youtu.be/] gives the Markdown link
    [[title](url)], whatever its position; an empty list and a list with no
    such URL give a "not found" sentence each; an exception of the search
    becomes a sentence that carries its message; the tool never raises. *)
Theorem C6_find_youtube_workout_video (tavily_search : search_service)
    (workout_type : string) :
  let query := "'" +:+ workout_type +:+ "' workout video youtube.com" in
  (forall (before : list (gmap string string)) r after,
     tavily_search query = Return (before ++ r :: after)%list ->
     Forall (fun d => ~ youtube_url (url_of d)) before ->
     youtube_url (url_of r) ->
     find_youtube_workout_video tavily_search workout_type =
       Return ("[" +:+ default (workout_type +:+ " Workout Video") (r !! "title")
                 +:+ "](" +:+ url_of r +:+ ")")) /\
  (tavily_search query = Return [] ->
     find_youtube_workout_video tavily_search workout_type =
       Return "Could not find any relevant search results for a video.") /\
  (forall results,
     tavily_search query = Return results -> results <> [] ->
     Forall (fun d => ~ youtube_url (url_of d)) results ->
     find_youtube_workout_video tavily_search workout_type =
       Return "Could not find a direct YouTube video link in search results.") /\
  (forall e,
     tavily_search query = Raise e ->
     find_youtube_workout_video tavily_search workout_type =
       Return ("Could not find a video link due to an error: " +:+ exn_str e)) /\
  returns (find_youtube_workout_video tavily_search workout_type).
Proof.
  intros query. unfold find_youtube_workout_video. fold query.
  repeat split.
  - intros before r after -> Hb%no_youtube_url_Forall Hr%is_youtube_url_spec.
    simpl. rewrite (first_youtube_link_first_match _ _ _ _ Hb Hr).
    by destruct before.
  - by intros ->.
  - intros results -> Hne Hall%no_youtube_url_Forall. simpl.
    rewrite (first_youtube_link_no_match _ _ Hall). by destruct results.
  - by intros e ->.
  - destruct (tavily_search query) as [[|r results]|e]; simpl; apply returns_Return.
Qed.

Lemma C6_find_youtube_workout_video_witness :
  find_youtube_workout_video article_then_video "HIIT Cardio"
    = Return "[HIIT in 10 minutes](https://youtu.be/xyz)".
Proof.
  apply (proj1 (C6_find_youtube_workout_video article_then_video "HIIT Cardio")
           [article_result] short_link_result []).
  - reflexivity.
  - constructor; [|constructor]. apply is_youtube_url_false. reflexivity.
  - right. exists "https://", "xyz". reflexivity.
Defined.

(** ** C7: [get_calories_for_food] *)

(** C7: the [content] of the first result is returned as it is when it is
    there and not empty; an empty list, and a first result with no (or an
    empty) [content], give a "not found" sentence each; an exception of the
    search becomes a sentence that carries its message; the tool never
    raises. *)
Theorem C7_get_calories_for_food (tavily_search : search_service)
    (food_item : string) :
  let query := "calories in " +:+ food_item in
  (forall first rest content,
     tavily_search query = Return (first :: rest) ->
     first !! "content" = Some content -> content <> "" ->
     get_calories_for_food tavily_search food_item = Return content) /\
  (tavily_search query = Return [] ->
     get_calories_for_food tavily_search food_item =
       Return "Could not find calorie information.") /\
  (forall first rest,
     tavily_search query = Return (first :: rest) ->
     first !! "content" = None \/ first !! "content" = Some "" ->
     get_calories_for_food tavily_search food_item =
       Return "Could not find calorie information in the search results.") /\
  (forall e,
     tavily_search query = Raise e ->
     get_calories_for_food tavily_search food_item =
       Return ("Could not find calorie information due to an error: "
                 +:+ exn_str e)) /\
  returns (get_calories_for_food tavily_search food_item).
Proof.
  intros query. unfold get_calories_for_food. fold query.
  repeat split.
  - intros first rest content -> Hc Hne. simpl. rewrite Hc. by destruct content.
  - by intros ->.
  - intros first rest -> [Hc|Hc]; simpl; by rewrite Hc.
  - by intros e ->.
  - destruct (tavily_search query) as [[|r results]|e]; simpl;
      [apply returns_Return | | apply returns_Return].
    destruct (r !! "content") as [[|c s]|]; apply returns_Return.
Qed.

(** ** Finite numbers round *)

Lemma float_round_returns x : returns (float_round x) <-> is_finite x = true.
Proof.
  unfold float_round, is_finite.
  destruct (Prim2SF x) as [? | ? | | ? m e]; simpl; split; try done;
    try (intros _; apply returns_Return); by intros ?%not_returns_Raise.
Qed.

Lemma py_round_returns v : returns (py_round v) <-> py_finite v = true.
Proof.
  destruct v as [z|x]; simpl; [|apply float_round_returns].
  split; [done | intros _; apply returns_Return].
Qed.

Lemma float_pos_sign y : float_pos y -> float_sign false y.
Proof. unfold float_pos, float_sign. by destruct (Prim2SF y) as [? | ? | | [] m e]. Qed.

Lemma mul_pos_sign s x y : float_sign s x -> float_pos y -> float_sign s (x * y).
Proof.
  intros Hx Hy%float_pos_sign. replace s with (xorb s false) by apply xorb_false_r.
  by apply mul_sign.
Qed.

Lemma pos_mul_sign s x y : float_pos x -> float_sign s y -> float_sign s (x * y).
Proof. intros Hx%float_pos_sign Hy. by apply (mul_sign false s). Qed.

Lemma div_pos_sign s x y : float_sign s x -> float_pos y -> float_sign s (x / y).
Proof.
  unfold float_pos. intros Hx Hy.
  destruct (Prim2SF y) as [? | ? | | [] m e] eqn:E; try done.
  replace s with (xorb s false) by apply xorb_false_r.
  by apply (div_sign s false x y m e).
Qed.

(** The sign of a product or quotient whose other operand is a positive
    constant. *)
Ltac float_sign_tac :=
  lazymatch goal with
  | |- float_pos _ => exact I
  | |- float_sign _ (_ / _) => apply div_pos_sign; float_sign_tac
  | |- float_sign _ (_ * _) =>
      (apply mul_pos_sign; float_sign_tac) || (apply pos_mul_sign; float_sign_tac)
  | |- _ => assumption
  end.

Lemma float_sign_total x : float_sign false x \/ float_sign true x.
Proof.
  unfold float_sign. destruct (Prim2SF x) as [? | [] | | [] m e]; simpl; auto.
Qed.


(** ** C2: the macro formulas *)

(** C2, as stated, fails for [weight_loss]: the carbohydrates are 150 g both
    for an 85 kg man whose adjusted calories are 2102.5 and for a 20 kg woman
    whose adjusted calories are negative, and no percentage of the calories
    divided by 4 rounds to 150 for both. *)
Lemma C2_counterexample :
  (exists m, diet_targets "weight_loss" 85 180 32 "male" "light"
               = Return (2102.5%float, m) /\ carbs_g m = PyInt 150) /\
  (exists m, diet_targets "weight_loss" 20 100 90 "female" "sedentary"
               = Return ((214 * 1.2 - 400)%float, m) /\ carbs_g m = PyInt 150) /\
  ~ (exists pct : float,
       float_round ((2102.5 * pct) / 4) = Return 150 /\
       float_round (((214 * 1.2 - 400) * pct) / 4) = Return 150).
Proof.
  split; [eexists; split; [vm_compute; reflexivity | reflexivity]|].
  split; [eexists; split; [vm_compute; reflexivity | reflexivity]|].
  intros (pct & H1 & H2).
  destruct (float_sign_total pct) as [Hs|Hs].
  - assert (Hneg : float_sign true (214 * 1.2 - 400)) by (vm_compute; reflexivity).
    pose proof (div_pos_sign _ _ 4 (mul_sign _ _ _ _ Hneg Hs) I) as H.
    apply (float_round_nonpos _ _ H) in H2. lia.
  - assert (Hpos : float_sign false 2102.5) by (vm_compute; reflexivity).
    pose proof (div_pos_sign _ _ 4 (mul_sign _ _ _ _ Hpos Hs) I) as H.
    apply (float_round_nonpos _ _ H) in H1. lia.
Qed.

(** C2, amended: the protein is [1.8 * weight_kg], and [2.0 * weight_kg] for
    [muscle_gain]; with [c] the goal-adjusted calories, [muscle_gain] has
    carbohydrates [c * 0.4 / 4] and fat [c * 0.3 / 9], [weight_loss] has the
    constant 150 for carbohydrates and fat [c * 0.25 / 9], and every other
    goal has carbohydrates [c * 0.45 / 4] and fat [c * 0.25 / 9]; each value
    is then rounded to the nearest integer. *)
Theorem C2_macro_formulas goal w h a g act p :
  calculate_diet_plan goal w h a g act = Return p ->
  exists c0 c,
    base_calories w h a g act = Return c0 /\
    c = (if String.eqb goal "weight_loss" then c0 - 400
         else if String.eqb goal "muscle_gain" then c0 + 400 else c0)%float /\
    float_round c = Return (daily_calories p) /\
    float_round ((if String.eqb goal "muscle_gain" then 2.0 else 1.8) * w)
      = Return (protein_g (macros p)) /\
    (goal = "weight_loss" ->
       carbs_g (macros p) = 150 /\
       float_round ((c * 0.25) / 9) = Return (fat_g (macros p))) /\
    (goal = "muscle_gain" ->
       float_round ((c * 0.4) / 4) = Return (carbs_g (macros p)) /\
       float_round ((c * 0.3) / 9) = Return (fat_g (macros p))) /\
    (goal <> "weight_loss" -> goal <> "muscle_gain" ->
       float_round ((c * 0.45) / 4) = Return (carbs_g (macros p)) /\
       float_round ((c * 0.25) / 9) = Return (fat_g (macros p))).
Proof.
  intros Hp.
  apply calculate_diet_plan_inv in Hp as (c0 & c & m & Hc0 & Hg & Hc & Hpr & Hca & Hft & _).
  exists c0, c. split; [done|]. unfold goal_adjust in Hg.
  destruct (String.eqb_spec goal "weight_loss") as [->|Hwl].
  - injection Hg as <- <-. simpl in *. injection Hca as <-. repeat split; done.
  - destruct (String.eqb_spec goal "muscle_gain") as [->|Hmg];
      injection Hg as <- <-; simpl in *; repeat split; done.
Qed.

Lemma C2_macro_formulas_witness :
  exists c0 c,
    base_calories 70 175 30 "male" "moderate" = Return c0 /\
    c = (if String.eqb "muscle_gain" "weight_loss" then c0 - 400
         else if String.eqb "muscle_gain" "muscle_gain" then c0 + 400 else c0)%float /\
    float_round c = Return (daily_calories plan_70_175_30_muscle_gain) /\
    float_round ((if String.eqb "muscle_gain" "muscle_gain" then 2.0 else 1.8) * 70)
      = Return (protein_g (macros plan_70_175_30_muscle_gain)) /\
    ("muscle_gain" = "weight_loss" ->
       carbs_g (macros plan_70_175_30_muscle_gain) = 150 /\
       float_round ((c * 0.25) / 9) = Return (fat_g (macros plan_70_175_30_muscle_gain))) /\
    ("muscle_gain" = "muscle_gain" ->
       float_round ((c * 0.4) / 4) = Return (carbs_g (macros plan_70_175_30_muscle_gain)) /\
       float_round ((c * 0.3) / 9) = Return (fat_g (macros plan_70_175_30_muscle_gain))) /\
    ("muscle_gain" <> "weight_loss" -> "muscle_gain" <> "muscle_gain" ->
       float_round ((c * 0.45) / 4) = Return (carbs_g (macros plan_70_175_30_muscle_gain)) /\
       float_round ((c * 0.25) / 9) = Return (fat_g (macros plan_70_175_30_muscle_gain))).
Proof.
  apply (C2_macro_formulas "muscle_gain" 70 175 30 "male" "moderate").
  vm_compute; reflexivity.
Defined.

(** ** C9: the sign of the macros *)

(** C9, as stated, fails: for a 20 kg, 100 cm, 90 year old sedentary woman
    who wants to lose weight the adjusted calories are negative and the plan
    has -4 g of fat. *)
Lemma C9_counterexample :
  exists p,
    calculate_diet_plan "weight_loss" 20 100 90 "female" "sedentary" = Return p /\
    daily_calories p = -143 /\
    fat_g (macros p) = -4 /\
    ~ (0 <= protein_g (macros p) /\ 0 <= carbs_g (macros p) /\ 0 <= fat_g (macros p)).
Proof.
  eexists. split; [vm_compute; reflexivity|]. simpl. repeat split; lia.
Qed.

(** C9, amended: the rounded macros of a returned plan are non-negative
    whenever [0 <= weight_kg] and the goal-adjusted calories, before
    rounding, are [>= 0]. *)
Theorem C9_macros_nonneg goal w h a g act c m p :
  diet_targets goal w h a g act = Return (c, m) ->
  calculate_diet_plan goal w h a g act = Return p ->
  (0 <=? w)%float = true ->
  (0 <=? c)%float = true ->
  0 <= protein_g (macros p) /\ 0 <= carbs_g (macros p) /\ 0 <= fat_g (macros p).
Proof.
  intros Ht Hp Hw%leb_zero_sign Hc%leb_zero_sign.
  unfold calculate_diet_plan in Hp. rewrite Ht in Hp. simpl in Hp.
  apply bind_Return_inv in Hp as (cal & _ & Hp).
  apply bind_Return_inv in Hp as (pr & Hpr & Hp).
  apply bind_Return_inv in Hp as (ca & Hca & Hp).
  apply bind_Return_inv in Hp as (ft & Hft & Hp).
  injection Hp as <-. simpl.
  unfold diet_targets in Ht.
  apply bind_Return_inv in Ht as (c0 & _ & Ht). injection Ht as Ht.
  unfold goal_adjust in Ht.
  destruct (String.eqb goal "weight_loss"); [|destruct (String.eqb goal "muscle_gain")];
    injection Ht as <- <-; simpl in Hpr, Hca, Hft;
    repeat split;
    try (eapply float_round_nonneg; [|eassumption]; float_sign_tac).
  injection Hca as <-. lia.
Qed.

Lemma C9_macros_nonneg_witness :
  0 <= protein_g (macros plan_70_175_30_muscle_gain) /\
  0 <= carbs_g (macros plan_70_175_30_muscle_gain) /\
  0 <= fat_g (macros plan_70_175_30_muscle_gain).
Proof.
  apply (C9_macros_nonneg "muscle_gain" 70 175 30 "male" "moderate"
           (1648.75 * 1.55 + 400)
           {| protein_g := PyFloat (2.0 * 70);
              carbs_g := PyFloat (((1648.75 * 1.55 + 400) * 0.4) / 4);
              fat_g := PyFloat (((1648.75 * 1.55 + 400) * 0.3) / 9) |});
    vm_compute; reflexivity.
Defined.

(** ** C8: the activity factor and the unrecognised strings *)







(** A failure comes from the numbers, not from the strings: a weight of
    1e308 makes the calories infinite and [round] raise, with unrecognised
    strings and with recognised ones alike. *)
Lemma huge_weight_raises_with_any_strings :
  calculate_diet_plan "bulk" 1e308 170 30 "other" "extreme"
    = Raise OverflowError_inf /\
  calculate_diet_plan "maintenance" 1e308 170 30 "female" "moderate"
    = Raise OverflowError_inf.
Proof. split; vm_compute; reflexivity. Qed.


(** * More of the code: the content provider and the application *)

(** ** [markdown_to_html_link] *)

Lemma lazy_until_paren_app u rest :
  all_chars url_char u = true ->
  lazy_until_paren (u +:+ String ")" rest) = Some u.
Proof.
  induction u as [|c u IH]; simpl; [done|].
  unfold url_char at 1. intros [[Hp Hn]%andb_true_iff Hu]%andb_true_iff.
  apply negb_true_iff in Hp, Hn. rewrite Hp, Hn. by rewrite IH.
Qed.

Lemma lazy_until_paren_sound s u :
  lazy_until_paren s = Some u ->
  all_chars url_char u = true /\ exists rest, s = u +:+ ")" +:+ rest.
Proof.
  revert u. induction s as [|c s IH]; simpl; [done|]. intros u.
  destruct (Ascii.eqb_spec c ")") as [->|Hp].
  { intros [= <-]. split; [done | by exists s]. }
  destruct (Ascii.eqb_spec c newline) as [->|Hn]; [done|].
  destruct (lazy_until_paren s) as [u'|]; [|done]. intros [= <-].
  destruct (IH u' eq_refl) as (Hu & rest & ->). split; [|by exists rest].
  simpl. unfold url_char at 1.
  apply Ascii.eqb_neq in Hp, Hn. by rewrite Hp, Hn.
Qed.

Lemma lazy_bracket_cons c t :
  lazy_bracket (String c t) =
    match (match t with
           | String c' u =>
               if Ascii.eqb c "]" && Ascii.eqb c' "(" then lazy_until_paren u else None
           | EmptyString => None
           end) with
    | Some url => Some (EmptyString, url)
    | None =>
        if Ascii.eqb c newline then None
        else match lazy_bracket t with
             | Some (title, url) => Some (String c title, url)
             | None => None
             end
    end.
Proof. reflexivity. Qed.

Lemma lazy_bracket_app t u rest :
  all_chars not_newline t = true ->
  str_in "](" t = false ->
  all_chars url_char u = true ->
  lazy_bracket (t +:+ String "]" (String "(" (u +:+ String ")" rest)))
    = Some (t, u).
Proof.
  intros Ht Hin Hu. induction t as [|c t IH].
  - simpl. by rewrite (lazy_until_paren_app u rest Hu).
  - rewrite str_in_cons in Hin. apply orb_false_iff in Hin as [Hpre Hin].
    simpl in Ht. apply andb_true_iff in Ht as [Hc Ht].
    change (String c t +:+ String "]" (String "(" (u +:+ String ")" rest)))
      with (String c (t +:+ String "]" (String "(" (u +:+ String ")" rest)))).
    rewrite lazy_bracket_cons, (IH Ht Hin).
    unfold not_newline in Hc. apply negb_true_iff in Hc. rewrite Hc.
    destruct t as [|c' t'].
    + by destruct (Ascii.eqb c "]").
    + change (String c' t' +:+ String "]" (String "(" (u +:+ String ")" rest)))
        with (String c' (t' +:+ String "]" (String "(" (u +:+ String ")" rest)))).
      destruct (Ascii.eqb_spec c "]") as [->|]; [|done].
      destruct (Ascii.eqb_spec c' "(") as [->|]; [|done].
      by destruct t'.
Qed.

Lemma lazy_bracket_sound s t u :
  lazy_bracket s = Some (t, u) ->
  all_chars not_newline t = true /\ all_chars url_char u = true /\
  exists rest, s = t +:+ "](" +:+ u +:+ ")" +:+ rest.
Proof.
  revert t. induction s as [|c s IH]; intros t; [done|]. rewrite lazy_bracket_cons.
  destruct (match s with
            | EmptyString => None
            | String c' u0 =>
                if Ascii.eqb c "]" && Ascii.eqb c' "(" then lazy_until_paren u0 else None
            end) as [url|] eqn:Hhere.
  - intros [= <- <-]. destruct s as [|c' u0]; [done|].
    destruct (Ascii.eqb_spec c "]") as [->|]; [|done].
    destruct (Ascii.eqb_spec c' "(") as [->|]; [|done]. simpl in Hhere.
    destruct (lazy_until_paren_sound _ _ Hhere) as (Hu & rest & ->).
    split; [done|]. split; [done|]. by exists rest.
  - destruct (Ascii.eqb_spec c newline) as [->|Hn]; [done|].
    destruct (lazy_bracket s) as [[t' u']|]; [|done]. intros [= <- <-].
    destruct (IH t' eq_refl) as (Ht & Hu & rest & ->).
    split; [|split; [done | by exists rest]].
    simpl. unfold not_newline at 1. apply Ascii.eqb_neq in Hn. by rewrite Hn.
Qed.

Lemma re_match_markdown_link_app t u rest :
  all_chars not_newline t = true ->
  str_in "](" t = false ->
  all_chars url_char u = true ->
  re_match_markdown_link ("[" +:+ t +:+ "](" +:+ u +:+ ")" +:+ rest) = Some (t, u).
Proof.
  intros Ht Hin Hu. unfold re_match_markdown_link.
  change ("[" +:+ t +:+ "](" +:+ u +:+ ")" +:+ rest)
    with (String "[" (t +:+ String "]" (String "(" (u +:+ String ")" rest)))).
  cbn [Ascii.eqb Bool.eqb]. apply (lazy_bracket_app t u rest Ht Hin Hu).
Qed.

(** X1: a string that begins with a link [[t](u)], whose title [t] has no
    newline and no ["]("] and whose URL [u] has no newline and no [")"], is
    turned into the anchor of [u] and [t], both copied as they are; whatever
    follows the link is dropped. *)
Theorem markdown_link_becomes_anchor t u rest :
  all_chars not_newline t = true ->
  str_in "](" t = false ->
  all_chars url_char u = true ->
  markdown_to_html_link (Some ("[" +:+ t +:+ "](" +:+ u +:+ ")" +:+ rest))
    = "<a href=" +:+ dquote +:+ u +:+ dquote +:+ " target=" +:+ dquote
        +:+ "_blank" +:+ dquote +:+ ">" +:+ t +:+ "</a>".
Proof.
  intros Ht Hin Hu. unfold markdown_to_html_link.
  by rewrite (re_match_markdown_link_app t u rest Ht Hin Hu).
Qed.

Lemma markdown_link_becomes_anchor_witness :
  markdown_to_html_link
    (Some ("[" +:+ "HIIT" +:+ "](" +:+ "https://youtu.be/a" +:+ ")" +:+ " (new)"))
    = "<a href=" +:+ dquote +:+ "https://youtu.be/a" +:+ dquote +:+ " target="
        +:+ dquote +:+ "_blank" +:+ dquote +:+ ">" +:+ "HIIT" +:+ "</a>".
Proof.
  apply (markdown_link_becomes_anchor "HIIT" "https://youtu.be/a" " (new)");
    reflexivity.
Defined.

(** X2: the converse. Whenever the string is changed, it is a [str] of the
    shape [[t](u)rest], with no newline in [t] and neither a newline nor a
    [")"] in [u], and the result is the anchor of that [u] and [t]: a URL
    that contains a [")"] is cut there. *)
Theorem markdown_to_html_link_changes_only_links v :
  (forall s, v = Some s -> markdown_to_html_link v <> s) ->
  v = None \/
  exists t u rest,
    v = Some ("[" +:+ t +:+ "](" +:+ u +:+ ")" +:+ rest) /\
    all_chars not_newline t = true /\ all_chars url_char u = true /\
    markdown_to_html_link v = html_link t u.
Proof.
  intros Hne. destruct v as [s|]; [right | by left].
  specialize (Hne s eq_refl). unfold markdown_to_html_link in *.
  destruct (re_match_markdown_link s) as [[t u]|] eqn:Hm; [|done].
  unfold re_match_markdown_link in Hm. destruct s as [|c s]; [done|].
  destruct (Ascii.eqb_spec c "[") as [->|]; [|done].
  destruct (lazy_bracket_sound _ _ _ Hm) as (Ht & Hu & rest & ->).
  by exists t, u, rest.
Qed.

Lemma markdown_to_html_link_changes_only_links_witness :
  Some "[x](u(v))" = None \/
  exists t u rest,
    Some "[x](u(v))" = Some ("[" +:+ t +:+ "](" +:+ u +:+ ")" +:+ rest) /\
    all_chars not_newline t = true /\ all_chars url_char u = true /\
    markdown_to_html_link (Some "[x](u(v))") = html_link t u.
Proof.
  apply (markdown_to_html_link_changes_only_links (Some "[x](u(v))")).
  intros s [= <-]. vm_compute. discriminate.
Defined.

(** X3: converting twice is converting once: an anchor, a text that is not
    a link and the empty string are all left as they are. *)
Theorem markdown_to_html_link_idempotent v :
  markdown_to_html_link (Some (markdown_to_html_link v))
    = markdown_to_html_link v.
Proof.
  destruct v as [s|]; [|reflexivity]. unfold markdown_to_html_link at 2 3.
  destruct (re_match_markdown_link s) as [[t u]|] eqn:Hm.
  - reflexivity.
  - unfold markdown_to_html_link. by rewrite Hm.
Qed.

(** ** The video links in the workout table *)

(** X4: what [find_youtube_workout_video] returns for a found video, once
    through [markdown_to_html_link], is the anchor of the result's URL and
    title (or of the default title), provided the title has no newline and
    no ["]("] and the URL has no newline and no [")"]. *)
Theorem video_link_renders_as_anchor (tavily_search : search_service)
    (workout_type : string) (before : list (gmap string string)) r after :
  let title := default (workout_type +:+ " Workout Video") (r !! "title") in
  tavily_search ("'" +:+ workout_type +:+ "' workout video youtube.com")
    = Return (before ++ r :: after)%list ->
  Forall (fun d => is_youtube_url (url_of d) = false) before ->
  is_youtube_url (url_of r) = true ->
  all_chars not_newline title = true ->
  str_in "](" title = false ->
  all_chars url_char (url_of r) = true ->
  exists link,
    find_youtube_workout_video tavily_search workout_type = Return link /\
    markdown_to_html_link (Some link) = html_link title (url_of r).
Proof.
  intros title Hs Hb Hr Ht Hin Hu.
  exists ("[" +:+ title +:+ "](" +:+ url_of r +:+ ")" +:+ ""). split.
  - unfold find_youtube_workout_video. rewrite Hs. simpl.
    rewrite (first_youtube_link_first_match _ _ _ _ Hb Hr).
    by destruct before.
  - unfold markdown_to_html_link.
    by rewrite (re_match_markdown_link_app title (url_of r) "" Ht Hin Hu).
Qed.

Lemma video_link_renders_as_anchor_witness :
  exists link,
    find_youtube_workout_video (fun _ => Return [∅; one_video_result]) "HIIT Cardio"
      = Return link /\
    markdown_to_html_link (Some link)
      = html_link (default ("HIIT Cardio" +:+ " Workout Video")
                     (one_video_result !! "title"))
          (url_of one_video_result).
Proof.
  apply (video_link_renders_as_anchor (fun _ => Return [∅; one_video_result])
           "HIIT Cardio" [∅] one_video_result []);
    try (vm_compute; reflexivity).
  repeat constructor.
Defined.

(** X5: when the search raises, returns nothing or returns no YouTube URL,
    the sentence [find_youtube_workout_video] returns goes through
    [markdown_to_html_link] unchanged. *)
Theorem video_failure_message_unchanged (tavily_search : search_service)
    (workout_type : string) :
  (forall results,
     tavily_search ("'" +:+ workout_type +:+ "' workout video youtube.com")
       = Return results ->
     Forall (fun d => is_youtube_url (url_of d) = false) results) ->
  exists message,
    find_youtube_workout_video tavily_search workout_type = Return message /\
    markdown_to_html_link (Some message) = message.
Proof.
  intros Hno. unfold find_youtube_workout_video.
  destruct (tavily_search _) as [[|r results]|e] eqn:Hs.
  - by eexists.
  - pose proof (first_youtube_link_no_match workout_type _ (Hno _ eq_refl)) as Hf.
    simpl in Hf |- *. rewrite Hf. by eexists.
  - by eexists.
Qed.

Lemma video_failure_message_unchanged_witness :
  exists message,
    find_youtube_workout_video
      (fun _ => Raise (Exn "ConnectionError" "no route to host")) "HIIT Cardio"
      = Return message /\
    markdown_to_html_link (Some message) = message.
Proof.
  apply (video_failure_message_unchanged
           (fun _ => Raise (Exn "ConnectionError" "no route to host")) "HIIT Cardio").
  intros results H. discriminate H.
Defined.

(** ** The sessions *)

Section Sessions.
Context {Agent : Type}.
Implicit Types (sessions : gmap string (session Agent)) (s : session Agent).

(** X6: [get_session] returns the session that the dict holds under the id
    afterwards and leaves every other id as it was. A session that exists is
    returned as it is and nothing is created, whatever [create_agent] would
    do; a missing one is created empty around a new agent and stored under
    the id; when the session is missing and [create_agent] raises, that
    exception goes to the caller and the dict is not changed, and this is
    the only way the call raises. *)
Theorem get_session_spec (create_agent : result Agent) session_id sessions :
  let res := get_session create_agent session_id sessions in
  (forall other, other <> session_id -> res.2 !! other = sessions !! other) /\
  (forall s, res.1 = Return s -> res.2 !! session_id = Some s) /\
  (forall s, sessions !! session_id = Some s -> res = (Return s, sessions)) /\
  (forall agent,
     sessions !! session_id = None -> create_agent = Return agent ->
     res = (Return (Session agent [] "" []),
            <[session_id := Session agent [] "" []]> sessions)) /\
  (forall e,
     sessions !! session_id = None -> create_agent = Raise e ->
     res = (Raise e, sessions)) /\
  (forall e,
     res.1 = Raise e ->
     res.2 = sessions /\ sessions !! session_id = None /\ create_agent = Raise e).
Proof.
  unfold get_session.
  destruct (sessions !! session_id) as [s0|] eqn:Hl; [|destruct create_agent as [a|e0]];
    simpl; repeat split; try done; intros; simplify_eq; try done.
  - by rewrite lookup_insert_ne.
  - by rewrite lookup_insert_eq.
Qed.

(** X7: asking twice gives the same session: after a first call that
    returned, a second call for the same id returns that session, changes
    nothing and creates no agent. *)
Theorem get_session_twice (create_agent create_agent' : result Agent)
    session_id sessions s :
  (get_session create_agent session_id sessions).1 = Return s ->
  get_session create_agent' session_id
    (get_session create_agent session_id sessions).2
  = (Return s, (get_session create_agent session_id sessions).2).
Proof.
  unfold get_session at 1 3 4.
  destruct (sessions !! session_id) as [s0|] eqn:Hl; [|destruct create_agent as [a|e0]];
    simpl; intros [= <-]; unfold get_session.
  - by rewrite Hl.
  - by rewrite lookup_insert_eq.
Qed.

End Sessions.

Lemma get_session_twice_witness :
  get_session (Raise (Exn "RuntimeError" "no network")) "id-1"
    (get_session (Return tt) "id-1" ∅).2
  = (Return (Session tt [] "" []), (get_session (Return tt) "id-1" ∅).2).
Proof.
  apply (get_session_twice (Return tt) (Raise (Exn "RuntimeError" "no network"))
           "id-1" ∅ (Session tt [] "" [])).
  reflexivity.
Defined.

(** ** The chat and the calorie lookup *)

Section Chat.
Context {Agent : Type}.
Variable create_agent : result Agent.
Variable agent_invoke : Agent -> string -> result (gmap string string).
Implicit Types (sessions : gmap string (session Agent)) (s : session Agent).

(** X8: a chat turn that returns gives the history it was passed followed by
    exactly two entries: the user's message as it was typed, and the
    assistant's reply, which is the [output] of the agent's response, the
    sentence "Sorry, I had trouble." when the response has no [output], or
    "An error occurred: ..." with the message of the exception the agent
    raised. *)
Theorem respond_in_chat_appends user_message chat_history session_id sessions
    history' :
  (respond_in_chat create_agent agent_invoke user_message chat_history
     session_id sessions).1 = Return history' ->
  exists s reply,
    (get_session create_agent session_id sessions).1 = Return s /\
    history' = (chat_history
                  ++ [Message "user" user_message; Message "assistant" reply])%list /\
    (forall response,
       agent_invoke (agent_executor s)
         (contextual_prompt (plan_context s) user_message) = Return response ->
       reply = default "Sorry, I had trouble." (response !! "output")) /\
    (forall e,
       agent_invoke (agent_executor s)
         (contextual_prompt (plan_context s) user_message) = Raise e ->
       reply = "An error occurred: " +:+ exn_str e).
Proof.
  unfold respond_in_chat.
  destruct (get_session create_agent session_id sessions) as [[s|e] sessions'];
    [|done]. simpl.
  destruct (agent_invoke _ _) as [response|e] eqn:Hinv; intros [= <-];
    exists s; eexists; (split; [done|]); rewrite <- app_assoc;
    (split; [done|]); rewrite Hinv; split; intros ? [= <-]; done.
Qed.

(** X9: the chat turn fails only where the session cannot be had: it returns
    whenever the session exists or an agent can be created, whatever the
    agent does, and an exception it raises is the one [create_agent] raised
    for a session that did not exist. It leaves the dict of sessions as
    [get_session] leaves it; the history kept in the session is not
    written. *)
Theorem respond_in_chat_errors user_message chat_history session_id sessions :
  let res := respond_in_chat create_agent agent_invoke user_message chat_history
               session_id sessions in
  res.2 = (get_session create_agent session_id sessions).2 /\
  (forall s, sessions !! session_id = Some s ->
     returns res.1 /\ res.2 = sessions) /\
  (forall agent, create_agent = Return agent -> returns res.1) /\
  (forall e, res.1 = Raise e ->
     sessions !! session_id = None /\ create_agent = Raise e).
Proof.
  unfold respond_in_chat, get_session.
  destruct (sessions !! session_id) as [s0|] eqn:Hl;
    [|destruct create_agent as [a|e0]]; simpl;
    repeat split; try done; intros; simplify_eq;
    try apply returns_Return; done.
Qed.

(** X10: the two handlers treat a failing agent differently. With a session
    at hand and an agent that raises, [handle_calorie_lookup] raises that
    exception to its caller, while [respond_in_chat] returns and reports it
    in the assistant's entry. *)
Theorem failing_agent_lookup_raises_chat_reports
    food_item user_message chat_history session_id sessions s e :
  sessions !! session_id = Some s ->
  (forall prompt, agent_invoke (agent_executor s) prompt = Raise e) ->
  (handle_calorie_lookup create_agent agent_invoke food_item session_id
     sessions).1 = Raise e /\
  (respond_in_chat create_agent agent_invoke user_message chat_history
     session_id sessions).1
  = Return (chat_history
              ++ [Message "user" user_message;
                  Message "assistant" ("An error occurred: " +:+ exn_str e)])%list.
Proof.
  intros Hl Hfail. unfold handle_calorie_lookup, respond_in_chat, get_session.
  rewrite Hl, !Hfail. simpl. by rewrite <- app_assoc.
Qed.

End Chat.

Lemma respond_in_chat_appends_witness :
  exists s reply,
    (get_session (Return tt) "id-1" ∅).1 = Return s /\
    [Message "user" "hello"; Message "assistant" "Sorry, I had trouble."]
      = ([] ++ [Message "user" "hello"; Message "assistant" reply])%list /\
    (forall response,
       silent_agent (agent_executor s)
         (contextual_prompt (plan_context s) "hello") = Return response ->
       reply = default "Sorry, I had trouble." (response !! "output")) /\
    (forall e,
       silent_agent (agent_executor s)
         (contextual_prompt (plan_context s) "hello") = Raise e ->
       reply = "An error occurred: " +:+ exn_str e).
Proof.
  apply (respond_in_chat_appends (Return tt) silent_agent "hello" [] "id-1" ∅).
  reflexivity.
Defined.

Lemma failing_agent_lookup_raises_chat_reports_witness :
  (handle_calorie_lookup (Return tt) failing_agent
     "apple" "id-1" {["id-1" := Session tt [] "" []]}).1
    = Raise timeout_error /\
  (respond_in_chat (Return tt) failing_agent
     "hello" [] "id-1" {["id-1" := Session tt [] "" []]}).1
  = Return ([] ++ [Message "user" "hello";
                   Message "assistant"
                     ("An error occurred: " +:+ exn_str timeout_error)])%list.
Proof.
  apply (failing_agent_lookup_raises_chat_reports (Return tt) failing_agent
           "apple" "hello" [] "id-1" {["id-1" := Session tt [] "" []]}
           (Session tt [] "" [])); [vm_compute; reflexivity | reflexivity].
Defined.

(** ** [get_motivational_content] *)

Lemma random_choice_singleton {A} draw (x : A) : random_choice draw [x] = Return x.
Proof.
  unfold random_choice. simpl List.length. by rewrite Nat.mod_1_r.
Qed.

(** X11: the content provider returns the same quote and the same fact on
    every call: the topic is not read, and each pool has one element, so the
    random draws change nothing and [random.choice] cannot fail. *)
Theorem get_motivational_content_constant draw1 draw2 topic :
  get_motivational_content draw1 draw2 topic = Return the_motivational_content.
Proof.
  unfold get_motivational_content. by rewrite !random_choice_singleton.
Qed.

(** ** More on [calculate_diet_plan] *)

Lemma float_round_raises x e :
  float_round x = Raise e -> e = OverflowError_inf \/ e = ValueError_nan.
Proof.
  unfold float_round. destruct (Prim2SF x) as [? | ? | | ? m ex]; simpl;
    intros [= <-]; auto.
Qed.

Lemma py_round_raises v e :
  py_round v = Raise e -> e = OverflowError_inf \/ e = ValueError_nan.
Proof. destruct v as [z|x]; simpl; [done | apply float_round_raises]. Qed.

Lemma float_of_int_raises z e : float_of_int z = Raise e -> e = OverflowError_int.
Proof.
  unfold float_of_int. by destruct (binary_normalize prec emax z 0 false);
    intros [= <-].
Qed.

(** X12: [calculate_diet_plan] returns a plan exactly when [5 * age] converts
    to a double and the adjusted calories and the three macros are finite;
    otherwise it raises, and only one of three exceptions: the
    [OverflowError] of the conversion, the [OverflowError] of rounding an
    infinity, or the [ValueError] of rounding a NaN. *)
Theorem calculate_diet_plan_returns_iff goal w h a g act :
  (returns (calculate_diet_plan goal w h a g act) <->
   exists c m,
     diet_targets goal w h a g act = Return (c, m) /\
     is_finite c = true /\ py_finite (protein_g m) = true /\
     py_finite (carbs_g m) = true /\ py_finite (fat_g m) = true) /\
  (forall e,
     calculate_diet_plan goal w h a g act = Raise e ->
     e = OverflowError_int \/ e = OverflowError_inf \/ e = ValueError_nan).
Proof.
  unfold calculate_diet_plan, diet_targets, base_calories. split.
  - destruct (float_of_int (5 * a)) as [fa|e0]; simpl.
    2:{ split; [by intros ?%not_returns_Raise | by intros (c & m & ? & _)]. }
    destruct (goal_adjust goal w _) as [c m]. unfold round_plan. split.
    + intros [p Hp]. exists c, m. split; [done|].
      apply bind_Return_inv in Hp as (cal & Hcal & Hp).
      apply bind_Return_inv in Hp as (pr & Hpr & Hp).
      apply bind_Return_inv in Hp as (ca & Hca & Hp).
      apply bind_Return_inv in Hp as (ft & Hft & Hp).
      rewrite <- (float_round_returns c), <- !py_round_returns.
      rewrite Hcal, Hpr, Hca, Hft. repeat split; apply returns_Return.
    + intros (c' & m' & [= <- <-] & Hc & Hpr & Hca & Hft).
      apply float_round_returns in Hc as [cal ->].
      apply py_round_returns in Hpr as [pr ->].
      apply py_round_returns in Hca as [ca ->].
      apply py_round_returns in Hft as [ft ->].
      simpl. apply returns_Return.
  - intros e. destruct (float_of_int (5 * a)) as [fa|e0] eqn:Hfa; simpl.
    2:{ intros [= <-]. left. by apply float_of_int_raises in Hfa. }
    destruct (goal_adjust goal w _) as [c m]. unfold round_plan.
    destruct (float_round c) as [cal|e1] eqn:Hc; simpl.
    2:{ intros [= <-]. right. by apply float_round_raises in Hc. }
    destruct (py_round (protein_g m)) as [pr|e1] eqn:Hp; simpl.
    2:{ intros [= <-]. right. by apply py_round_raises in Hp. }
    destruct (py_round (carbs_g m)) as [ca|e1] eqn:Hca; simpl.
    2:{ intros [= <-]. right. by apply py_round_raises in Hca. }
    destruct (py_round (fat_g m)) as [ft|e1] eqn:Hft; simpl; [done|].
    intros [= <-]. right. by apply py_round_raises in Hft.
Qed.

(** X13: the weekly meal plan does not depend on the user: any two returned
    plans, for whatever goals and body data, carry the same seven meals. *)
Theorem weekly_meal_plan_same_for_all goal w h a g act p
    goal' w' h' a' g' act' p' :
  calculate_diet_plan goal w h a g act = Return p ->
  calculate_diet_plan goal' w' h' a' g' act' = Return p' ->
  weekly_meal_plan p = weekly_meal_plan p'.
Proof.
  intros (_ & _ & _ & _ & _ & _ & _ & _ & _ & ->)%calculate_diet_plan_inv
         (_ & _ & _ & _ & _ & _ & _ & _ & _ & ->)%calculate_diet_plan_inv.
  reflexivity.
Qed.

Lemma weekly_meal_plan_same_for_all_witness :
  weekly_meal_plan plan_70_175_30_muscle_gain
    = weekly_meal_plan plan_70_175_30_sedentary.
Proof.
  apply (weekly_meal_plan_same_for_all
           "muscle_gain" 70 175 30 "male" "moderate" plan_70_175_30_muscle_gain
           "maintenance" 70 175 30 "male" "sedentary" plan_70_175_30_sedentary);
    vm_compute; reflexivity.
Defined.

Lemma round_half_even_sub_even (q : Q) (k : Z) :
  round_half_even (q - inject_Z (2 * k))%Q = round_half_even q - 2 * k.
Proof.
  replace (round_half_even q - 2 * k) with (round_half_even q + 2 * (- k)) by lia.
  rewrite <- round_half_even_add_even. apply round_half_even_Qeq.
  unfold Qminus. replace (2 * - k) with (- (2 * k)) by lia. reflexivity.
Qed.

(** X14: with the other inputs fixed, the [muscle_gain] and [weight_loss]
    calories are the roundings of the base calories plus and minus 400,
    whatever the inputs; and the two returned [daily_calories] differ by 800
    whenever that addition and that subtraction are exact. *)
Theorem muscle_gain_minus_weight_loss w h a g act c0 pg pl :
  base_calories w h a g act = Return c0 ->
  calculate_diet_plan "muscle_gain" w h a g act = Return pg ->
  calculate_diet_plan "weight_loss" w h a g act = Return pl ->
  float_round (c0 + 400) = Return (daily_calories pg) /\
  float_round (c0 - 400) = Return (daily_calories pl) /\
  (exact_add c0 400 -> exact_sub c0 400 ->
   daily_calories pg - daily_calories pl = 800).
Proof.
  intros Hc0 Hg Hl.
  apply calculate_diet_plan_inv in Hg as (c1 & cg & mg & Hc1 & Hg & Hrg & _).
  apply calculate_diet_plan_inv in Hl as (c2 & cl & ml & Hc2 & Hl & Hrl & _).
  rewrite Hc0 in Hc1, Hc2. injection Hc1 as <-. injection Hc2 as <-.
  rewrite goal_adjust_muscle_gain in Hg. injection Hg as <- _.
  rewrite goal_adjust_weight_loss in Hl. injection Hl as <- _.
  split; [done|]. split; [done|]. intros Hadd Hsub.
  apply float_round_inv in Hrg as (qg & Hqg & ->).
  apply float_round_inv in Hrl as (ql & Hql & ->).
  unfold exact_add in Hadd. unfold exact_sub in Hsub.
  rewrite Hqg in Hadd. rewrite Hql in Hsub.
  destruct (SF2Q (Prim2SF c0)) as [q0|]; [|done].
  destruct SF2Q_400 as (q4 & E4 & Hq4). rewrite E4 in Hadd, Hsub.
  rewrite Hq4 in Hadd, Hsub.
  rewrite (round_half_even_Qeq _ _ Hadd), (round_half_even_Qeq _ _ Hsub),
    round_half_even_add_even, round_half_even_sub_even. lia.
Qed.

Lemma muscle_gain_minus_weight_loss_witness :
  float_round (1648.75 * 1.55 + 400)
    = Return (daily_calories plan_70_175_30_muscle_gain) /\
  float_round (1648.75 * 1.55 - 400)
    = Return (daily_calories plan_70_175_30_weight_loss) /\
  daily_calories plan_70_175_30_muscle_gain
    - daily_calories plan_70_175_30_weight_loss = 800.
Proof.
  destruct (muscle_gain_minus_weight_loss 70 175 30 "male" "moderate"
              (1648.75 * 1.55) plan_70_175_30_muscle_gain
              plan_70_175_30_weight_loss)
    as (Hg & Hl & Hdiff); [vm_compute; reflexivity ..|].
  split; [exact Hg|]. split; [exact Hl|].
  apply Hdiff; vm_compute; reflexivity.
Defined.

Lemma mul_nan x y : is_nan x = true \/ is_nan y = true -> is_nan (x * y) = true.
Proof.
  unfold is_nan. rewrite mul_spec.
  destruct (Prim2SF x) as [? | ? | | ? mx ex], (Prim2SF y) as [? | ? | | ? my ey];
    simpl; intros [?|?]; done.
Qed.

Lemma add_nan x y : is_nan x = true \/ is_nan y = true -> is_nan (x + y) = true.
Proof.
  unfold is_nan. rewrite add_spec.
  destruct (Prim2SF x) as [? | ? | | ? mx ex], (Prim2SF y) as [? | ? | | ? my ey];
    simpl; intros [?|?]; done.
Qed.

Lemma sub_nan x y : is_nan x = true \/ is_nan y = true -> is_nan (x - y) = true.
Proof.
  unfold is_nan. rewrite sub_spec.
  destruct (Prim2SF x) as [? | ? | | ? mx ex], (Prim2SF y) as [? | ? | | ? my ey];
    simpl; intros [?|?]; done.
Qed.

Lemma float_round_nan x : is_nan x = true -> float_round x = Raise ValueError_nan.
Proof.
  unfold is_nan, float_round. by destruct (Prim2SF x) as [? | ? | | ? m e].
Qed.

(** X15: a NaN for the weight or the height never gives a plan: whatever the
    goal, gender and activity level, and for every age whose product by 5
    converts, the tool raises the [ValueError] of rounding a NaN. *)
Theorem nan_weight_or_height_raises goal w h a g act fa :
  float_of_int (5 * a) = Return fa ->
  is_nan w = true \/ is_nan h = true ->
  calculate_diet_plan goal w h a g act = Raise ValueError_nan.
Proof.
  intros Hfa Hnan.
  assert (Hsum : is_nan (10 * w + 6.25 * h) = true).
  { apply add_nan. destruct Hnan; [left | right]; apply mul_nan; auto. }
  assert (Hbmr : is_nan (bmr g w h fa) = true).
  { unfold bmr. destruct (String.eqb (lower g) "male");
      [apply add_nan | apply sub_nan]; left; apply sub_nan; auto. }
  assert (Hc0 : is_nan (bmr g w h fa * activity_multiplier act) = true)
    by (apply mul_nan; auto).
  unfold calculate_diet_plan, diet_targets, base_calories. rewrite Hfa. simpl.
  unfold goal_adjust.
  destruct (String.eqb goal "weight_loss"); [|destruct (String.eqb goal "muscle_gain")];
    simpl.
  - rewrite (float_round_nan (bmr g w h fa * activity_multiplier act - 400));
      [reflexivity | apply sub_nan; by left].
  - rewrite (float_round_nan (bmr g w h fa * activity_multiplier act + 400));
      [reflexivity | apply add_nan; by left].
  - by rewrite (float_round_nan (bmr g w h fa * activity_multiplier act)).
Qed.

Lemma nan_weight_or_height_raises_witness :
  calculate_diet_plan "maintenance" nan 175 30 "male" "light" = Raise ValueError_nan.
Proof.
  apply (nan_weight_or_height_raises "maintenance" nan 175 30 "male" "light" 150);
    [vm_compute; reflexivity | left; reflexivity].
Defined.

(** ** [render_plan_from_json] *)

Lemma py_get_inv v key fallback r :
  py_get v key fallback = Return r ->
  exists d, v = JDict d /\ r = default fallback (dict_lookup key d).
Proof. destruct v; simpl; try done. intros [= <-]. eauto. Qed.

Lemma py_get_dict d key fallback :
  py_get (JDict d) key fallback = Return (default fallback (dict_lookup key d)).
Proof. reflexivity. Qed.

Lemma py_get_not_dict v key fallback :
  is_dict v = false -> py_get v key fallback = Raise (AttributeError_get v).
Proof. by destruct v. Qed.

Section Render.
Variable pd : Pandas.
Variable json_loads : string -> result json.
Variable str_of : json -> string.

(** One step of the body: the first call either raises, and the [except]
    clause answers, or returns, and the rest goes on. *)
Ltac render_step :=
  lazymatch goal with
  | |- context [try_except (?r ≫= _) _] =>
      let E := fresh "E" in
      destruct r eqn:E; cbn [mbind result_bind try_except]
  end.

(** X16: rendering never raises, and it is all or nothing. Either the plan
    was loaded and is a dict, and it is returned beside the rendered parts;
    or the result is the error message followed by an empty table, three
    empty strings and [None]. *)
Theorem render_plan_all_or_nothing raw_json_string :
  exists out,
    render_plan_from_json pd json_loads str_of raw_json_string = Return out /\
    ((exists d, load_plan json_loads raw_json_string = Return (JDict d) /\
                out.2 = Some (JDict d)) \/
     (exists e, out = render_error pd e)).
Proof.
  unfold render_plan_from_json, render_plan_body.
  destruct (load_plan json_loads raw_json_string) as [data|e] eqn:Hload;
    cbn [mbind result_bind try_except]; [|eexists; split; [done | right; by eexists]].
  destruct data as [| | | | |l|d];
    try (eexists; split; [done | right; by eexists]).
  repeat (render_step; [|eexists; split; [done | right; by eexists]]).
  eexists. split; [done|]. left. by exists d.
Qed.

(** X17: a plan that is not a JSON object is answered with the error
    message of the missing [get]: for a list, a string, a number, [true],
    [false] or [null] the first part of the result is "Error formatting
    plan: 'list' object has no attribute 'get'" (with the type's name) and
    the rest is blank. A text that does not parse is answered with the
    parser's message in the same way. *)
Theorem render_plan_rejects_non_dict raw_json_string :
  (forall v,
     load_plan json_loads raw_json_string = Return v -> is_dict v = false ->
     render_plan_from_json pd json_loads str_of raw_json_string
       = Return ("Error formatting plan: '" +:+ type_name v
                   +:+ "' object has no attribute 'get'",
                 pd_empty pd, "", "", "", None)) /\
  (forall e,
     load_plan json_loads raw_json_string = Raise e ->
     render_plan_from_json pd json_loads str_of raw_json_string
       = Return ("Error formatting plan: " +:+ exn_str e,
                 pd_empty pd, "", "", "", None)).
Proof.
  unfold render_plan_from_json, render_plan_body. split.
  - intros v -> Hv. cbn [mbind result_bind]. by destruct v.
  - by intros e ->.
Qed.

(** X18: one malformed section blanks the whole plan. When the value under
    [diet_plan] or under [motivational_content] is there and is not an
    object, every part of the result is lost to the error message, the diet
    and the workouts too. *)
Theorem render_plan_malformed_section raw_json_string d v :
  load_plan json_loads raw_json_string = Return (JDict d) ->
  dict_lookup "diet_plan" d = Some v \/
    dict_lookup "motivational_content" d = Some v ->
  is_dict v = false ->
  exists e,
    render_plan_from_json pd json_loads str_of raw_json_string
      = Return (render_error pd e).
Proof.
  intros Hload Hsec Hv. unfold render_plan_from_json, render_plan_body.
  rewrite Hload. cbn [mbind result_bind]. destruct Hsec as [Hs|Hs].
  - rewrite (py_get_dict d "diet_plan"), Hs. cbn [default mbind result_bind].
    rewrite (py_get_not_dict v "macros" _ Hv). by eexists.
  - rewrite (py_get_dict d "motivational_content"), Hs.
    cbn [default mbind result_bind].
    rewrite (py_get_not_dict v "quote" _ Hv).
    do 10 (render_step; [|by eexists]). by eexists.
Qed.

(** X19: a plan with nothing in it is rendered with placeholders. When the
    object has no [diet_plan] and no [motivational_content] and its
    [workout_plan] is missing or empty, the calories and macros read "N/A",
    the workout part says that no plan was generated (and no table is asked
    of pandas for it), the quote is "..." by "Unknown" and the fact "...". *)
Theorem render_plan_missing_sections raw_json_string d df :
  load_plan json_loads raw_json_string = Return (JDict d) ->
  dict_lookup "diet_plan" d = None ->
  dict_lookup "motivational_content" d = None ->
  truthy (default (JList []) (dict_lookup "workout_plan" d)) = false ->
  pd_DataFrame pd (JList []) = Return df ->
  render_plan_from_json pd json_loads str_of raw_json_string
    = Return (diet_md_text "N/A" "N/A" "N/A" "N/A", df,
              workout_header +:+ "<p>No workout plan generated.</p>",
              quote_text_of "..." "Unknown", fact_text_of "...",
              Some (JDict d)).
Proof.
  intros Hload Hdiet Hmot Hwork Hdf.
  unfold render_plan_from_json, render_plan_body, render_workout.
  rewrite Hload. cbn [mbind result_bind py_get]. rewrite Hdiet, Hmot.
  cbn [default mbind result_bind py_get dict_lookup]. rewrite Hdf.
  cbn [mbind result_bind]. rewrite Hwork. reflexivity.
Qed.

End Render.

Lemma render_plan_malformed_section_witness :
  exists e,
    render_plan_from_json toy_pandas (fun _ => Return JNull) toy_str_of
      (JDict [("diet_plan", JDict []); ("motivational_content", JStr "Keep going")])
      = Return (render_error toy_pandas e).
Proof.
  apply (render_plan_malformed_section toy_pandas (fun _ => Return JNull) toy_str_of
           (JDict [("diet_plan", JDict []);
                   ("motivational_content", JStr "Keep going")])
           [("diet_plan", JDict []); ("motivational_content", JStr "Keep going")]
           (JStr "Keep going")); [reflexivity | by right | reflexivity].
Defined.

Lemma render_plan_missing_sections_witness :
  render_plan_from_json toy_pandas toy_json_loads toy_str_of (JStr "{}")
    = Return (diet_md_text "N/A" "N/A" "N/A" "N/A", JList [],
              workout_header +:+ "<p>No workout plan generated.</p>",
              quote_text_of "..." "Unknown", fact_text_of "...",
              Some (JDict [])).
Proof.
  apply (render_plan_missing_sections toy_pandas toy_json_loads toy_str_of
           (JStr "{}") [] (JList [])); reflexivity.
Defined.

(** ** [generate_initial_plan] *)

Lemma get_session_lookup {Agent} (create_agent : result Agent) session_id sessions
    s sessions' :
  get_session create_agent session_id sessions = (Return s, sessions') ->
  sessions' !! session_id = Some s /\
  (forall other, other <> session_id -> sessions' !! other = sessions !! other).
Proof.
  unfold get_session. destruct (sessions !! session_id) as [s0|] eqn:Hs.
  - intros [= <- <-]. done.
  - destruct create_agent as [agent|e]; intros [= <- <-].
    split; [apply lookup_insert_eq|]. intros other Ho. by apply lookup_insert_ne.
Qed.

Section Generate.
Context {Agent : Type}.
Variable pd : Pandas.
Variable json_loads : string -> result json.
Variable str_of : json -> string.
Variables json_dumps json_dumps_indent : json -> result string.
Variable create_agent : result Agent.
Variable agent_invoke : Agent -> string -> result (gmap string string).
Variables goal weight height age gender activity experience : json.
Variable session_id : string.
Variable sessions : gmap string (session Agent).

Let details := user_details_of goal weight height age gender activity experience.
Let generated :=
  generate_initial_plan pd json_loads str_of json_dumps json_dumps_indent
    create_agent agent_invoke goal weight height age gender activity experience
    session_id sessions.

(** X20: the details of the form are recorded whatever happens next. Once
    the session is there, the session stored under the id afterwards holds
    the seven details under their keys, in the order of the form, with the
    agent and the chat history it had, also when the agent or the rendering
    fails or [json.dumps] raises; and no other session is touched. *)
Theorem generate_initial_plan_records_details s sessions' :
  get_session create_agent session_id sessions = (Return s, sessions') ->
  exists s',
    generated.2 !! session_id = Some s' /\
    user_details s' =
      [ ("goal", goal); ("weight_kg", weight); ("height_cm", height);
        ("age", age); ("gender", gender); ("activity_level", activity);
        ("experience_level", experience) ] /\
    agent_executor s' = agent_executor s /\
    chat_history s' = chat_history s /\
    (forall other, other <> session_id ->
       generated.2 !! other = sessions !! other).
Proof.
  intros Hget. destruct (get_session_lookup _ _ _ _ _ Hget) as [_ Hother].
  unfold generated, generate_initial_plan. rewrite Hget.
  destruct (json_dumps _) as [text|e]; cbn [snd].
  - destruct (plan_attempt _ _ _ _ _ _ _ _ _) as [[outputs context]|e]; cbn [snd].
    + eexists. split; [apply lookup_insert_eq|]. repeat split.
      intros other Ho. rewrite !lookup_insert_ne by done. by apply Hother.
    + eexists. split; [apply lookup_insert_eq|]. repeat split.
      intros other Ho. rewrite lookup_insert_ne by done. by apply Hother.
  - eexists. split; [apply lookup_insert_eq|]. repeat split.
    intros other Ho. rewrite lookup_insert_ne by done. by apply Hother.
Qed.

(** X21: the handler raises only before its [try]: when the agent of a new
    session cannot be created, and then nothing is stored, or when
    [json.dumps] rejects the details of the form, and then the details are
    stored all the same. Every other failure is answered on the page. *)
Theorem generate_initial_plan_raises_iff e :
  generated.1 = Raise e <->
  (get_session create_agent session_id sessions).1 = Raise e \/
  (exists s, (get_session create_agent session_id sessions).1 = Return s /\
             json_dumps (JDict details) = Raise e).
Proof.
  unfold generated, generate_initial_plan.
  destruct (get_session create_agent session_id sessions) as [[s|e0] sessions'];
    cbn [fst].
  - fold details. destruct (json_dumps (JDict details)) as [text|e1]; cbn [fst].
    + destruct (plan_attempt _ _ _ _ _ _ _ _ _) as [[outputs context]|e1];
        cbn [fst]; split; try done; intros [?|(?&?&?)]; done.
    + split; [intros [= ->]; right; by exists s|].
      intros [?|(?&?&?)]; congruence.
  - split; [intros [= ->]; by left|]. intros [[= ->]|(?&?&?)]; done.
Qed.

(** X22: when the agent fails, the page shows "An error occurred: " and the
    agent's message, an empty table and empty texts, the tabs stay where
    they are and the chat stays empty; the plan context of the session is
    left as it was, while the details of the form are already stored. *)
Theorem generate_initial_plan_agent_fails s sessions' text e :
  get_session create_agent session_id sessions = (Return s, sessions') ->
  json_dumps (JDict details) = Return text ->
  agent_invoke (agent_executor s)
    (initial_prompt (fstring_value str_of goal) text) = Raise e ->
  generated =
    (Return ("An error occurred: " +:+ exn_str e, pd_empty pd, "", "", "",
             NoUpdate, []),
     <[session_id := set_user_details details s]> sessions').
Proof.
  intros Hget Hdumps Hinvoke. unfold generated, generate_initial_plan.
  rewrite Hget. fold details. rewrite Hdumps. unfold plan_attempt.
  cbn [set_user_details agent_executor]. rewrite Hinvoke. reflexivity.
Qed.

(** X23: an answer of the agent that cannot be read still opens the chat.
    When the output of the agent does not parse as JSON, the first part of
    the page shows "Error formatting plan: " and the parser's message, but
    the tabs switch to the chat (tab 1) with its greeting, and the plan
    context of the session is set, with the dump of [None] in the place of
    the plan. *)
Theorem generate_initial_plan_unreadable_output s sessions' text response e
    null_text :
  get_session create_agent session_id sessions = (Return s, sessions') ->
  json_dumps (JDict details) = Return text ->
  agent_invoke (agent_executor s)
    (initial_prompt (fstring_value str_of goal) text) = Return response ->
  json_loads (default "{}" (response !! "output")) = Raise e ->
  json_dumps_indent JNull = Return null_text ->
  generated.1 =
    Return ("Error formatting plan: " +:+ exn_str e, pd_empty pd, "", "", "",
            SelectTab 1, [initial_chat_message]) /\
  exists s',
    generated.2 !! session_id = Some s' /\
    plan_context s' = plan_context_text text null_text.
Proof.
  intros Hget Hdumps Hinvoke Hloads Hnull.
  unfold generated, generate_initial_plan.
  rewrite Hget. fold details. rewrite Hdumps. unfold plan_attempt.
  cbn [set_user_details agent_executor]. rewrite Hinvoke.
  cbn [mbind result_bind].
  unfold render_plan_from_json, render_plan_body, load_plan. rewrite Hloads.
  cbn [mbind result_bind try_except render_error]. rewrite Hdumps.
  cbn [mbind result_bind default]. rewrite Hnull. cbn [mbind result_bind fst snd].
  split; [done|]. eexists. split; [apply lookup_insert_eq|done].
Qed.


End Generate.

Lemma generate_initial_plan_records_details_witness :
  exists s',
    (generate_initial_plan toy_pandas toy_json_loads toy_str_of toy_json_dumps
       toy_json_dumps (Return tt) failing_agent (JStr "Weight Loss") (JInt 70)
       (JInt 175) (JInt 30) (JStr "Male") (JStr "Sedentary") (JStr "Beginner")
       "abc" ∅).2 !! "abc" = Some s' /\
    user_details s' =
      [ ("goal", JStr "Weight Loss"); ("weight_kg", JInt 70);
        ("height_cm", JInt 175); ("age", JInt 30); ("gender", JStr "Male");
        ("activity_level", JStr "Sedentary");
        ("experience_level", JStr "Beginner") ] /\
    agent_executor s' = tt /\
    chat_history s' = [] /\
    (forall other, other <> "abc" ->
       (generate_initial_plan toy_pandas toy_json_loads toy_str_of toy_json_dumps
          toy_json_dumps (Return tt) failing_agent (JStr "Weight Loss") (JInt 70)
          (JInt 175) (JInt 30) (JStr "Male") (JStr "Sedentary") (JStr "Beginner")
          "abc" ∅).2 !! other = (∅ : gmap string (session unit)) !! other).
Proof.
  exact (generate_initial_plan_records_details toy_pandas toy_json_loads
           toy_str_of toy_json_dumps toy_json_dumps (Return tt) failing_agent
           (JStr "Weight Loss") (JInt 70) (JInt 175) (JInt 30) (JStr "Male")
           (JStr "Sedentary") (JStr "Beginner") "abc" ∅
           (Session tt [] "" []) _ eq_refl).
Defined.

Lemma generate_initial_plan_agent_fails_witness :
  generate_initial_plan toy_pandas toy_json_loads toy_str_of toy_json_dumps
    toy_json_dumps (Return tt) failing_agent (JStr "Weight Loss") (JInt 70)
    (JInt 175) (JInt 30) (JStr "Male") (JStr "Sedentary") (JStr "Beginner")
    "abc" ∅
  = (Return ("An error occurred: timed out", JList [], "", "", "", NoUpdate, []),
     <[ "abc" :=
          Session tt
            [ ("goal", JStr "Weight Loss"); ("weight_kg", JInt 70);
              ("height_cm", JInt 175); ("age", JInt 30); ("gender", JStr "Male");
              ("activity_level", JStr "Sedentary");
              ("experience_level", JStr "Beginner") ] "" [] ]>
       (<[ "abc" := Session tt [] "" [] ]> ∅)).
Proof.
  exact (generate_initial_plan_agent_fails toy_pandas toy_json_loads
           toy_str_of toy_json_dumps toy_json_dumps (Return tt) failing_agent
           (JStr "Weight Loss") (JInt 70) (JInt 175) (JInt 30) (JStr "Male")
           (JStr "Sedentary") (JStr "Beginner") "abc" ∅
           (Session tt [] "" []) _ "{}" timeout_error
           eq_refl eq_refl eq_refl).
Defined.

Lemma generate_initial_plan_unreadable_output_witness :
  (generate_initial_plan toy_pandas toy_json_loads toy_str_of toy_json_dumps
     toy_json_dumps (Return tt) chatty_agent (JStr "Weight Loss") (JInt 70)
     (JInt 175) (JInt 30) (JStr "Male") (JStr "Sedentary") (JStr "Beginner")
     "abc" ∅).1
  = Return ("Error formatting plan: Expecting value: line 1 column 1 (char 0)",
            JList [], "", "", "", SelectTab 1, [initial_chat_message]) /\
  exists s',
    (generate_initial_plan toy_pandas toy_json_loads toy_str_of toy_json_dumps
       toy_json_dumps (Return tt) chatty_agent (JStr "Weight Loss") (JInt 70)
       (JInt 175) (JInt 30) (JStr "Male") (JStr "Sedentary") (JStr "Beginner")
       "abc" ∅).2 !! "abc" = Some s' /\
    plan_context s' = plan_context_text "{}" "null".
Proof.
  exact (generate_initial_plan_unreadable_output toy_pandas toy_json_loads
           toy_str_of toy_json_dumps toy_json_dumps (Return tt) chatty_agent
           (JStr "Weight Loss") (JInt 70) (JInt 175) (JInt 30) (JStr "Male")
           (JStr "Sedentary") (JStr "Beginner") "abc" ∅
           (Session tt [] "" []) _ "{}" chatty_response
           (Exn "JSONDecodeError" "Expecting value: line 1 column 1 (char 0)")
           "null" eq_refl eq_refl eq_refl eq_refl eq_refl).
Defined.

